(** * lbImageServer: a static image server, as a Windows service and as a container

    A shallow embedding of the two Go programs of the repository
    ([golang-webserver/main.go], the service variant, and the container
    variant with [ServeFiles]) and of the [install] command of the batch
    script that manages the service, together with the properties of the
    specification that concern them.

    Calls into the operating system and into the Go libraries are effects:
    each function of the programs is a function from the state it can observe
    (and from the outcomes of the calls it makes) to its result, the new state
    and the list of the effects it performed, in program order. *)

From Stdlib Require Import ZArith Lia Ascii.
From stdpp Require Import base option list strings gmap.

Local Open Scope Z_scope.

(** ** The service-control library: golang.org/x/sys/windows/svc

    The types and constants of the library that the service variant uses.
    The library itself is not part of the repository. *)

Module svc.

(** [svc.State], the states a service reports to the service manager.
    (The field [State] of a status is declared below.) *)
Inductive state : Type :=
  | Stopped | StartPending | StopPending | Running
  | ContinuePending | PausePending | Paused.

(** [svc.Cmd], the control requests; [OtherCmd] stands for every request
    the program has no case for. *)
Inductive cmd : Type :=
  | Stop | Pause | Continue | Interrogate | Shutdown
  | OtherCmd (code : Z).

(** [svc.Accepted] is a bit mask. *)
Definition AcceptStop : Z := 1.
Definition AcceptShutdown : Z := 4.

Record Status : Type := mkStatus {
  State : state;
  Accepts : Z;
  WaitHint : Z            (* milliseconds *)
}.

Record ChangeRequest : Type := mkChangeRequest {
  Cmd : cmd;
  CurrentStatus : Status
}.

End svc.

(** [time.Duration] counts nanoseconds. *)
Definition time_Second : Z := 1000000000.

(** ** Errors and formatted messages *)

(** An error value coming out of the operating system or of a library.
    [os.IsNotExist] is the only classification the programs apply to it;
    everything else they do with it is print its text. *)
Inductive oserror : Type :=
  | ErrNotExist (text : string)
  | ErrPermission (text : string)
  | ErrOther (text : string).

Definition Error (e : oserror) : string :=
  match e with
  | ErrNotExist t | ErrPermission t | ErrOther t => t
  end.

Definition os_IsNotExist (err : option oserror) : bool :=
  match err with
  | Some (ErrNotExist _) => true
  | _ => false
  end.

(** Arguments of a format string.  Messages are kept as the format and its
    arguments, the way the source writes them. *)
Inductive fmtarg : Type :=
  | AStr (s : string)
  | AErr (e : oserror)
  | AReq (c : svc.ChangeRequest).

(** A message: a string literal or [fmt.Sprintf format args...]. *)
Inductive message : Type :=
  | Lit (s : string)
  | Sprintf (format : string) (args : list fmtarg).

(** [fmt.Errorf format args...] *)
Inductive error : Type :=
  | Errorf (format : string) (args : list fmtarg).

(** A Go result pair [(v, err)]: either [(v, nil)] or [(nil, err)]. *)
Inductive result (A E : Type) : Type :=
  | Ok (v : A)
  | Err (e : E).
Arguments Ok {A E} v.
Arguments Err {A E} e.


(** ** The HTTP library: net/http

    A server value is the record the programs fill in; a handler is what it
    does with a request, as the list of its effects.  The file-serving
    primitive ([http.FileServer]) and the multiplexer's matching are the
    library's: the primitive is an effect, the multiplexer picks the handler
    of the longest registered pattern that matches the path. *)

Module http.

Record Request : Type := mkRequest { Method : string; URLPath : string }.

Inductive effect : Type :=
  | LogPrintf (format : string) (args : list fmtarg)
  | FileServe (root : string) (r : Request)
  | NotFound (r : Request).

Definition Handler : Type := Request -> list effect.

(** [http.FileServer(http.Dir(root))] *)
Definition FileServer (root : string) : Handler := fun r => [FileServe root r].

Definition NotFoundHandler : Handler := fun r => [NotFound r].

Fixpoint ends_in_slash (s : string) : bool :=
  match s with
  | EmptyString => false
  | String c EmptyString => Ascii.eqb c "/"%char
  | String _ s' => ends_in_slash s'
  end.

(** A pattern that ends in a slash names a subtree, any other a single
    path. *)
Definition pattern_matches (pattern path : string) : bool :=
  if decide (pattern = path) then true
  else ends_in_slash pattern && String.prefix pattern path.

(** [http.ServeMux]: a map from patterns to handlers. *)
Definition ServeMux_Handle (pattern : string) (h : Handler)
    (mux : gmap string Handler) : gmap string Handler :=
  <[pattern := h]> mux.

Definition better (path : string) (e : string * Handler)
    (best : option (string * Handler)) : option (string * Handler) :=
  if pattern_matches e.1 path then
    match best with
    | Some b => if (String.length b.1 <? String.length e.1)%nat then Some e else best
    | None => Some e
    end
  else best.

Definition ServeMux_match (mux : gmap string Handler) (path : string)
    : option (string * Handler) :=
  foldr (better path) None (map_to_list mux).

Definition ServeMux_ServeHTTP (mux : gmap string Handler) : Handler :=
  fun r =>
    match ServeMux_match mux (URLPath r) with
    | Some e => e.2 r
    | None => NotFoundHandler r
    end.

(** [http.Server]; a [Handler] of [None] is Go's nil, for which the server
    uses [http.DefaultServeMux]. Timeouts are durations, zero meaning none. *)
Record Server : Type := mkServer {
  Addr : string;
  Handler_ : option Handler;
  ReadTimeout : Z;
  WriteTimeout : Z;
  IdleTimeout : Z
}.


(** [http.ListenAndServe(addr, handler)] runs the server
    [&Server{Addr: addr, Handler: handler}]. *)
Definition ListenAndServe_server (addr : string) (handler : option Handler)
    : Server :=
  {| Addr := addr; Handler_ := handler;
     ReadTimeout := 0; WriteTimeout := 0; IdleTimeout := 0 |}.

End http.

(** ** The service variant: golang-webserver/main.go *)

Module Webserver.

(** [type Config struct { Port string; Folder string }] *)
Record Config : Type := mkConfig { Port : string; Folder : string }.

(** What [LoadConfig] observes of its environment. *)
Record Env : Type := mkEnv {
  os_Executable : result string oserror;
  os_Open : string -> result string oserror;   (* the bytes of the file *)
  os_Stat : string -> option oserror           (* [None]: the path exists *)
}.

Section LoadConfig.

(** Library functions the loader calls; their code is not part of the
    repository. [json_Decode] stands for decoding the file's bytes into a
    [Config] with [json.NewDecoder(file).Decode(&config)]. *)
Variable filepath_Dir : string -> string.
Variable filepath_Join : string -> string -> string.
Variable json_Decode : string -> result Config oserror.

Definition configPath (exePath filename : string) : string :=
  filepath_Join (filepath_Dir exePath) filename.

Definition LoadConfig (env : Env) (filename : string) : result Config error :=
  match os_Executable env with
  | Err err => Err (Errorf "failed to get executable path: %w" [AErr err])
  | Ok exePath =>
    let configPath := configPath exePath filename in
    match os_Open env configPath with
    | Err err =>
        Err (Errorf "failed to open config file %s: %w" [AStr configPath; AErr err])
    | Ok file =>
      match json_Decode file with
      | Err err => Err (Errorf "failed to decode config: %w" [AErr err])
      | Ok config =>
        if decide (Port config = EmptyString) then
          Err (Errorf "port cannot be empty" [])
        else if decide (Folder config = EmptyString) then
          Err (Errorf "folder cannot be empty" [])
        else if os_IsNotExist (os_Stat env (Folder config)) then
          Err (Errorf "folder does not exist: %s" [AStr (Folder config)])
        else Ok config
      end
    end
  end.

Definition folder_missing (env : Env) (c : Config) : Prop :=
  exists t, os_Stat env (Folder c) = Some (ErrNotExist t).


End LoadConfig.

(** *** The HTTP listener *)

Definition createServer (config : Config) : http.Server :=
  let mux := http.ServeMux_Handle "/" (http.FileServer (Folder config)) ∅ in
  {| http.Addr := ":" +:+ Port config;
     http.Handler_ := Some (http.ServeMux_ServeHTTP mux);
     http.ReadTimeout := 15 * time_Second;
     http.WriteTimeout := 15 * time_Second;
     http.IdleTimeout := 60 * time_Second |}.

(** *** The service lifecycle adapter *)

(** [type Service struct]. The mutex is its state, [true] while held; the
    event log is part of the effects below. *)
Record Service : Type := mkService {
  server : http.Server;
  config : Config;
  isRunning : bool;
  runningMux : bool
}.

(** The service value [main] hands to [svc.Run]: the flag and the mutex have
    their zero values. *)
Definition newService (config : Config) : Service :=
  {| server := createServer config; config := config;
     isRunning := false; runningMux := false |}.

(** The effects of [Execute], in program order. The listener goroutine is
    run in sequence with the callback: its first steps at the [go] statement
    (they happen during the startup sleep), its last ones just before the
    callback receives from the error channel. Its effects are marked
    [InListener]. *)
Inductive effect : Type :=
  | ChangesSend (st : svc.Status)
  | ElogInfo (eid : Z) (m : message)
  | ElogError (eid : Z) (m : message)
  | ContextWithCancel
  | ContextWithTimeout (d : Z)
  | Cancel
  | CancelShutdown
  | Go
  | InListener (e : effect)
  | Sleep (d : Z)
  | MuxLock
  | MuxUnlock
  | SetIsRunning (b : bool)
  | ServerListenAndServe
  | ErrChanSend (err : oserror)
  | ServerShutdown (timeout : Z).

(** What the [select] of the service loop receives. *)
Inductive Event : Type :=
  | ErrChanRecv (err : oserror)
  | ControlRecv (c : svc.ChangeRequest).

(** A computation over the service value either finishes or blocks, on the
    [select] when nothing more is delivered or on the mutex when it is held. *)
Inductive blocked : Type := OnSelect | OnMutex.

Inductive run (A : Type) : Type :=
  | Done (a : A) (s : Service) (t : list effect)
  | Blocked (why : blocked) (s : Service) (t : list effect).
Arguments Done {A} a s t.
Arguments Blocked {A} why s t.

Definition M (A : Type) : Type := Service -> run A.

Definition M_ret {A} (a : A) : M A := fun s => Done a s [].

Definition M_bind {A B} (m : M A) (k : A -> M B) : M B :=
  fun s =>
    match m s with
    | Done a s1 t1 =>
        match k a s1 with
        | Done b s2 t2 => Done b s2 (t1 ++ t2)
        | Blocked w s2 t2 => Blocked w s2 (t1 ++ t2)
        end
    | Blocked w s1 t1 => Blocked w s1 t1
    end.

#[global] Instance M_mret : MRet M := @M_ret.
#[global] Instance M_mbind : MBind M := fun A B k m => M_bind m k.

Definition emit (e : effect) : M unit := fun s => Done tt s [e].

Definition block {A} (w : blocked) : M A := fun s => Blocked w s [].

Definition Lock : M unit :=
  fun s =>
    if runningMux s then Blocked OnMutex s []
    else Done tt {| server := server s; config := config s;
                    isRunning := isRunning s; runningMux := true |} [MuxLock].

Definition Unlock : M unit :=
  fun s => Done tt {| server := server s; config := config s;
                      isRunning := isRunning s; runningMux := false |} [MuxUnlock].

Definition set_isRunning (b : bool) : M unit :=
  fun s => Done tt {| server := server s; config := config s;
                      isRunning := b; runningMux := runningMux s |} [SetIsRunning b].

Definition get_config : M Config := fun s => Done (config s) s [].

Definition send (st : svc.Status) : M unit := emit (ChangesSend st).
Definition elog_Info (eid : Z) (m : message) : M unit := emit (ElogInfo eid m).
Definition elog_Error (eid : Z) (m : message) : M unit := emit (ElogError eid m).

(** Steps of the goroutine: the callback goes on whether they finish or not. *)
Definition in_listener (m : M unit) : M unit :=
  fun s =>
    match m s with
    | Done _ s' t | Blocked _ s' t => Done tt s' (InListener <$> t)
    end.

Definition cmdsAccepted : Z := Z.lor svc.AcceptStop svc.AcceptShutdown.

(** The goroutine up to its call of [ListenAndServe]. *)
Definition listener_start : M unit :=
  c ← get_config;
  elog_Info 1 (Sprintf "Starting HTTP server on port %s serving folder %s"
                 [AStr (Port c); AStr (Folder c)]) ;;
  Lock ;; set_isRunning true ;; Unlock ;;
  emit ServerListenAndServe.

(** The goroutine after [ListenAndServe] returned an error other than
    [http.ErrServerClosed]. *)
Definition listener_failed (err : oserror) : M unit :=
  elog_Error 1 (Sprintf "HTTP server error: %v" [AErr err]) ;;
  emit (ErrChanSend err).

Section Execute.

(** The error [s.server.Shutdown] returns for a context with the given
    timeout, [None] for nil. *)
Variable server_Shutdown : Z -> option oserror.

Definition stop : M (bool * Z) :=
  elog_Info 1 (Lit "Service stop/shutdown received") ;;
  send {| svc.State := svc.StopPending; svc.Accepts := cmdsAccepted;
          svc.WaitHint := 10000 |} ;;
  emit (ContextWithTimeout (5 * time_Second)) ;;
  Lock ;; set_isRunning false ;; Unlock ;;
  emit (ServerShutdown (5 * time_Second)) ;;
  match server_Shutdown (5 * time_Second) with
  | Some err => elog_Error 1 (Sprintf "Error during shutdown: %v" [AErr err])
  | None => mret tt
  end ;;
  elog_Info 1 (Lit "Service stopped successfully") ;;
  emit CancelShutdown ;; emit Cancel ;;
  mret (false, 0).

Fixpoint serviceLoop (r : list Event) : M (bool * Z) :=
  match r with
  | [] => block OnSelect
  | ErrChanRecv err :: _ =>
      in_listener (listener_failed err) ;;
      elog_Error 1 (Sprintf "Server error: %v" [AErr err]) ;;
      emit Cancel ;;
      mret (false, 1)
  | ControlRecv c :: r' =>
      match svc.Cmd c with
      | svc.Interrogate =>
          elog_Info 1 (Lit "Service interrogate received") ;;
          send (svc.CurrentStatus c) ;;
          serviceLoop r'
      | svc.Stop | svc.Shutdown => stop
      | _ =>
          elog_Error 1 (Sprintf "Unexpected control request: %d" [AReq c]) ;;
          serviceLoop r'
      end
  end.

(** [Execute]; its [args] are not used. [r] is what the service loop
    receives, in order; the statuses sent on [changes] are the
    [ChangesSend] effects. *)
Definition Execute (r : list Event) : M (bool * Z) :=
  send {| svc.State := svc.StartPending; svc.Accepts := cmdsAccepted;
          svc.WaitHint := 10000 |} ;;
  elog_Info 1 (Lit "Service Execute started") ;;
  emit ContextWithCancel ;;
  emit Go ;; in_listener listener_start ;;
  emit (Sleep (1 * time_Second)) ;;
  send {| svc.State := svc.Running; svc.Accepts := cmdsAccepted;
          svc.WaitHint := 0 |} ;;
  elog_Info 1 (Lit "Service status set to running") ;;
  serviceLoop r.

End Execute.

(** The trace and the result of a run. *)
Definition trace {A} (x : run A) : list effect :=
  match x with Done _ _ t | Blocked _ _ t => t end.

Definition final {A} (x : run A) : Service :=
  match x with Done _ s _ | Blocked _ s _ => s end.

Definition returned {A} (x : run A) : option A :=
  match x with Done a _ _ => Some a | Blocked _ _ _ => None end.

(** The statuses the callback itself sent on [changes]. *)
Definition reported (t : list effect) : list svc.Status :=
  omap (fun e => match e with ChangesSend st => Some st | _ => None end) t.

(** *** The service installer *)

(** What the service manager and the registry hold. A registration is what
    [mgr.CreateService] records, with the recovery policy that [sc failure]
    sets. *)
Inductive StartType : Type := StartManual | StartAutomatic | StartDisabled.

Record mgr_Config : Type := mkMgrConfig {
  StartType_ : StartType;
  DisplayName : string;
  Description : string;
  ServiceStartName : string
}.

Inductive RecoveryAction : Type := RestartService | RunCommand | Reboot | NoAction.

Record Recovery : Type := mkRecovery {
  ResetPeriod : Z;                              (* seconds *)
  Actions : list (RecoveryAction * Z)           (* with the delay in ms *)
}.

Record Registration : Type := mkRegistration {
  BinaryPath : string;
  Conf : mgr_Config;
  Args : list string;
  RecoveryPolicy : option Recovery
}.

Record System : Type := mkSystem {
  services : gmap string Registration;
  eventSources : gset string
}.

(** The outcomes of the calls of [installService] that the state of the
    system does not decide: a [Some] is the error a call to the service
    manager fails with, a [true] says that the registry refuses the access. *)
Record Host : Type := mkHost {
  executable : result string oserror;
  connect_fault : option oserror;
  create_fault : option oserror;
  eventlog_remove_denied : bool;
  eventlog_install_denied : bool
}.

Definition access_denied : oserror := ErrPermission "Access is denied.".

(** The calls [installService] makes, in order. *)
Inductive call : Type :=
  | EventlogRemove (src : string)
  | OsExecutable
  | MgrConnect
  | MgrDisconnect
  | MgrOpenService (name : string)
  | MgrCreateService (name exepath : string)
  | ServiceClose
  | ServiceDelete (name : string)
  | EventlogInstallAsEventCreate (src : string).

(** [strings.Contains] *)
Fixpoint strings_Contains (s substr : string) : bool :=
  String.prefix substr s ||
  match s with
  | EmptyString => false
  | String _ s' => strings_Contains s' substr
  end.

(** [eventlog.Remove]: deletes the registry key of the source. *)
Definition eventlog_Remove (h : Host) (src : string) (sys : System) : System :=
  if eventlog_remove_denied h then sys
  else {| services := services sys; eventSources := eventSources sys ∖ {[src]} |}.

Definition addKeyName : string :=
  "SYSTEM\CurrentControlSet\Services\EventLog\Application".

(** [eventlog.InstallAsEventCreate]: creates the registry key of the source
    and fails when it is there already. *)
Definition eventlog_InstallAsEventCreate (h : Host) (src : string) (sys : System)
    : option oserror * System :=
  if eventlog_install_denied h then (Some access_denied, sys)
  else if decide (src ∈ eventSources sys) then
    (Some (ErrOther (addKeyName +:+ "\" +:+ src +:+ " registry key already exists")), sys)
  else
    (None, {| services := services sys; eventSources := {[src]} ∪ eventSources sys |}).

(** [m.CreateService] *)
Definition mgr_CreateService (h : Host) (name exepath : string) (c : mgr_Config)
    (args : list string) (sys : System) : option oserror * System :=
  match create_fault h with
  | Some err => (Some err, sys)
  | None =>
      match services sys !! name with
      | Some _ => (Some (ErrOther "The specified service already exists."), sys)
      | None =>
          (None, {| services := <[name := {| BinaryPath := exepath; Conf := c;
                                              Args := args; RecoveryPolicy := None |}]>
                                  (services sys);
                    eventSources := eventSources sys |})
      end
  end.

(** [s.Delete] *)
Definition Service_Delete (name : string) (sys : System) : System :=
  {| services := delete name (services sys); eventSources := eventSources sys |}.

(** [installService]: the error it returns ([None] for nil), the system it
    leaves and the calls it made. *)
Definition installService (h : Host) (sys : System)
    : option error * System * list call :=
  let sys := eventlog_Remove h "ImageServer" sys in
  let t := [EventlogRemove "ImageServer"; OsExecutable] in
  match executable h with
  | Err err => (Some (Errorf "failed to get executable path: %w" [AErr err]), sys, t)
  | Ok exePath =>
    let t := t ++ [MgrConnect] in
    match connect_fault h with
    | Some err =>
        (Some (Errorf "failed to connect to service manager: %w" [AErr err]), sys, t)
    | None =>
      let t := t ++ [MgrOpenService "ImageServer"] in
      match services sys !! "ImageServer" with
      | Some _ =>
          (Some (Errorf "service already exists - please remove it first" []), sys,
           t ++ [ServiceClose; MgrDisconnect])
      | None =>
        let t := t ++ [MgrCreateService "ImageServer" exePath] in
        match mgr_CreateService h "ImageServer" exePath
                {| StartType_ := StartAutomatic;
                   DisplayName := "Image Server";
                   Description := "A simple image-serving web server.";
                   ServiceStartName := "LocalSystem" |}
                ["service"] sys with
        | (Some err, sys) =>
            (Some (Errorf "failed to create service: %w" [AErr err]), sys,
             t ++ [MgrDisconnect])
        | (None, sys) =>
          let t := t ++ [EventlogInstallAsEventCreate "ImageServer"] in
          match eventlog_InstallAsEventCreate h "ImageServer" sys with
          | (Some err, sys) =>
              if negb (strings_Contains (Error err) "registry key already exists") then
                (Some (Errorf "failed to install event logger: %w" [AErr err]),
                 Service_Delete "ImageServer" sys,
                 t ++ [ServiceDelete "ImageServer"; ServiceClose; MgrDisconnect])
              else (None, sys, t ++ [ServiceClose; MgrDisconnect])
          | (None, sys) => (None, sys, t ++ [ServiceClose; MgrDisconnect])
          end
        end
      end
    end
  end.

Definition install_error (x : option error * System * list call) : option error := x.1.1.
Definition install_system (x : option error * System * list call) : System := x.1.2.
Definition install_calls (x : option error * System * list call) : list call := x.2.

(** The error of the existing-service check, and the registration
    [installService] asks for. *)
Definition already_exists : error :=
  Errorf "service already exists - please remove it first" [].

Definition new_registration (exePath : string) : Registration :=
  {| BinaryPath := exePath;
     Conf := {| StartType_ := StartAutomatic;
                DisplayName := "Image Server";
                Description := "A simple image-serving web server.";
                ServiceStartName := "LocalSystem" |};
     Args := ["service"];
     RecoveryPolicy := None |}.

(** [main] with the argument [install]: the exit status of the process. *)
Definition main_install (h : Host) (sys : System) : Z * System :=
  match installService h sys with
  | (Some _, sys', _) => (1, sys')      (* log.Fatal *)
  | (None, sys', _) => (0, sys')
  end.

End Webserver.

(** ** The container variant: golang-docker/main.go *)

Module Docker.

Inductive effect : Type :=
  | Println (args : list string)
  | ListenAndServe (srv : http.Server)
  | LogFatal (msg : string) (err : oserror).

(** The handler [ServeFiles] registers: the closure over [folder]. *)
Definition responder (folder : string) : http.Handler :=
  fun r =>
    http.LogPrintf "Received request: %s %s"
      [AStr (http.Method r); AStr (http.URLPath r)]
    :: http.FileServer folder r.

(** The server [http.ListenAndServe(":"+port, nil)] runs. *)
Definition listener (port : string) : http.Server :=
  http.ListenAndServe_server (":" +:+ port) None.

(** [ServeFiles]: the default multiplexer it leaves and its effects.
    [listen_err] is the error [http.ListenAndServe] returns, [None] while
    it serves. *)
Definition ServeFiles (port folder : string) (listen_err : option oserror)
    (DefaultServeMux : gmap string http.Handler)
    : gmap string http.Handler * list effect :=
  let mux := http.ServeMux_Handle "/" (responder folder) DefaultServeMux in
  (mux,
   [Println ["Serving"; folder; "on port"; port];
    ListenAndServe (listener port)]
   ++ match listen_err with
      | Some err => [LogFatal "Error starting server:" err]
      | None => []
      end).

End Docker.

(** ** The service manager script: its [install] command *)

Module ManageService.

Import Webserver.

Definition SERVICE_NAME : string := "ImageServer".

(** [sc config <name> start= auto] *)
Definition sc_config_start (name : string) (st : StartType) (sys : System) : System :=
  {| services :=
       alter (fun r => {| BinaryPath := BinaryPath r;
                          Conf := {| StartType_ := st;
                                     DisplayName := DisplayName (Conf r);
                                     Description := Description (Conf r);
                                     ServiceStartName := ServiceStartName (Conf r) |};
                          Args := Args r;
                          RecoveryPolicy := RecoveryPolicy r |})
             name (services sys);
     eventSources := eventSources sys |}.

(** [sc failure <name> reset= <seconds> actions= <action>/<ms>/...] *)
Definition sc_failure (name : string) (reset : Z)
    (actions : list (RecoveryAction * Z)) (sys : System) : System :=
  {| services :=
       alter (fun r => {| BinaryPath := BinaryPath r; Conf := Conf r; Args := Args r;
                          RecoveryPolicy :=
                            Some {| ResetPeriod := reset; Actions := actions |} |})
             name (services sys);
     eventSources := eventSources sys |}.

(** The [install] branch of [:process_commands]: the lines it echoes and
    the system it leaves. *)
Definition process_commands_install (h : Host) (sys : System)
    : list string * System :=
  let '(errorLevel, sys) := main_install h sys in
  if decide (errorLevel = 0) then
    let sys := sc_config_start SERVICE_NAME StartAutomatic sys in
    let sys := sc_failure SERVICE_NAME 86400
                 [(RestartService, 60000); (RestartService, 60000);
                  (RestartService, 60000)] sys in
    (["Installing ImageServer service..."; "Service installed successfully.";
      "Configuring service...";
      "Service configured for automatic restart on failure."], sys)
  else
    (["Installing ImageServer service..."; "Failed to install service."], sys).

End ManageService.

(** ** The service remover: [removeService] *)

Module Remover.

Import Webserver.

(** The outcomes of the calls of [removeService] that the registrations do
    not decide. [query] is what the first [s.Query] returns, [polls] what the
    calls in the wait loop return, in order, as far as they are known. *)
Record Env : Type := mkEnv {
  manager_fault : option oserror;
  query : result svc.Status oserror;
  stop_fault : option oserror;
  polls : list (result svc.Status oserror);
  delete_fault : option oserror;
  registry_denied : bool;
  missing_key_error : oserror   (* what [eventlog.Remove] gives for an absent source *)
}.

Inductive call : Type :=
  | Connect
  | Disconnect
  | OpenService (name : string)
  | Close
  | Query
  | ControlStop
  | Sleep (d : Z)
  | Delete
  | EventlogRemove (src : string).

(** [removeService] returns an error ([None] for nil), or is still in its
    wait loop when the known polls are used up. *)
Inductive outcome : Type :=
  | Returned (err : option error)
  | Polling.

Definition is_stopped (status : svc.Status) : bool :=
  match svc.State status with
  | svc.Stopped => true
  | _ => false
  end.

Definition service_does_not_exist : oserror :=
  ErrOther "The specified service does not exist as an installed service.".

(** The loop [for status.State != svc.Stopped], entered with a status that
    is not stopped: the calls it makes and whether it was left. *)
Fixpoint wait_stopped (polls : list (result svc.Status oserror)) : list call * bool :=
  match polls with
  | [] => ([], false)
  | Ok status :: polls' =>
      if is_stopped status then ([Sleep time_Second; Query], true)
      else
        let '(t, over) := wait_stopped polls' in
        (Sleep time_Second :: Query :: t, over)
  | Err _ :: _ => ([Sleep time_Second; Query], true)
  end.

(** The block that stops the service if it is running. *)
Inductive stopping : Type :=
  | Stopped_ (t : list call)
  | StopFailed (err : oserror)
  | Waiting (t : list call).

Definition stop_service (env : Env) : stopping :=
  match query env with
  | Ok status =>
      if is_stopped status then Stopped_ []
      else
        match stop_fault env with
        | Some err => StopFailed err
        | None =>
            match wait_stopped (polls env) with
            | (t, true) => Stopped_ (ControlStop :: t)
            | (t, false) => Waiting (ControlStop :: t)
            end
        end
  | Err _ => Stopped_ []
  end.

(** [eventlog.Remove], with the error it returns. *)
Definition eventlog_Remove (env : Env) (src : string) (sys : System)
    : option oserror * System :=
  if registry_denied env then (Some access_denied, sys)
  else if decide (src ∈ eventSources sys) then
    (None, {| services := services sys; eventSources := eventSources sys ∖ {[src]} |})
  else (Some (missing_key_error env), sys).

Definition removeService (env : Env) (sys : System)
    : outcome * System * list call :=
  match manager_fault env with
  | Some err =>
      (Returned (Some (Errorf "failed to connect to service manager: %w" [AErr err])),
       sys, [Connect])
  | None =>
    match services sys !! "ImageServer" with
    | None =>
        (Returned (Some (Errorf "failed to open service: %w"
                           [AErr service_does_not_exist])),
         sys, [Connect; OpenService "ImageServer"; Disconnect])
    | Some _ =>
      let t := [Connect; OpenService "ImageServer"; Query] in
      match stop_service env with
      | StopFailed err =>
          (Returned (Some (Errorf "failed to stop service: %w" [AErr err])), sys,
           t ++ [ControlStop; Close; Disconnect])
      | Waiting t' => (Polling, sys, t ++ t')
      | Stopped_ t' =>
        let t := t ++ t' ++ [Delete] in
        match delete_fault env with
        | Some err =>
            (Returned (Some (Errorf "failed to delete service: %w" [AErr err])), sys,
             t ++ [Close; Disconnect])
        | None =>
          let sys := Service_Delete "ImageServer" sys in
          let t := t ++ [EventlogRemove "ImageServer"; Close; Disconnect] in
          match eventlog_Remove env "ImageServer" sys with
          | (Some err, sys) =>
              if negb (strings_Contains (Error err) "registry key does not exist") then
                (Returned (Some (Errorf "failed to remove event logger: %w" [AErr err])),
                 sys, t)
              else (Returned None, sys, t)
          | (None, sys) => (Returned None, sys, t)
          end
        end
      end
    end
  end.

(** The number of times a run slept. *)
Fixpoint sleeps (t : list call) : nat :=
  match t with
  | [] => 0%nat
  | Sleep _ :: t' => S (sleeps t')
  | _ :: t' => sleeps t'
  end.

(** A poll that shows the service still on its way to stopping. *)
Definition still_running (p : result svc.Status oserror) : Prop :=
  exists status, p = Ok status /\ is_stopped status = false.

(** A poll that ends the wait loop: a stopped service, or a failed query. *)
Definition ends_wait (p : result svc.Status oserror) : Prop :=
  match p with
  | Ok status => is_stopped status = true
  | Err _ => True
  end.

(** The error for a service that is not installed. *)
Definition not_installed : error :=
  Errorf "failed to open service: %w" [AErr service_does_not_exist].

Definition remove_outcome (x : outcome * System * list call) : outcome := x.1.1.
Definition remove_system (x : outcome * System * list call) : System := x.1.2.
Definition remove_calls (x : outcome * System * list call) : list call := x.2.

End Remover.

(** ** The entry point of the service variant: [main] *)

Module ServiceMain.

Import Webserver.

Inductive logarg : Type :=
  | LStr (s : string)
  | LError (e : error)
  | LOSError (e : oserror).

Inductive effect : Type :=
  | InstallService (calls : list Webserver.call)
  | RemoveService (calls : list Remover.call)
  | Println (s : string)
  | LogFatal (args : list logarg)
  | LogFatalf (format : string) (args : list logarg)
  | LogPrintf (format : string) (args : list logarg)
  | ListenAndServe (srv : http.Server)
  | IsWindowsService
  | EventlogOpen (src : string)
  | EventlogClose
  | ElogInfo (eid : Z) (m : string)
  | ElogError (eid : Z) (format : string) (args : list logarg)
  | SvcRun (name : string) (s : Service).

(** What [main] observes: its arguments and the outcomes of its calls.
    [ListenAndServe_err] is [None] while the debug server serves;
    [svc_Run_err] is the error [svc.Run] returns, [None] for nil. *)
Record Env : Type := mkEnv {
  os_Args : list string;
  host : Host;
  remover : Remover.Env;
  loader : Webserver.Env;
  svc_IsWindowsService : result bool oserror;
  eventlog_Open_fault : option oserror;
  ListenAndServe_err : option oserror;
  svc_Run_err : option oserror
}.

Section main.

Variable filepath_Dir : string -> string.
Variable filepath_Join : string -> string -> string.
Variable json_Decode : string -> result Config oserror.

(** The part of [main] after the switch on the first argument. *)
Definition run_as_service (env : Env) : option Z * list effect :=
  match svc_IsWindowsService env with
  | Err err =>
      (Some 1, [IsWindowsService;
                LogFatalf "Failed to determine if running as service: %v" [LOSError err]])
  | Ok false =>
      (Some 1, [IsWindowsService;
                LogFatal [LStr "This program can only be run as a Windows service or with the debug flag"]])
  | Ok true =>
    match eventlog_Open_fault env with
    | Some err =>
        (Some 1, [IsWindowsService; EventlogOpen "ImageServer";
                  LogFatal [LStr "Failed to open event log:"; LOSError err]])
    | None =>
      let t := [IsWindowsService; EventlogOpen "ImageServer";
                ElogInfo 1 "Service starting..."] in
      match LoadConfig filepath_Dir filepath_Join json_Decode (loader env) "config.json" with
      | Err err =>
          (Some 1, t ++ [ElogError 1 "Failed to load config: %v" [LError err];
                         LogFatal [LError err]])
      | Ok config =>
        let t := t ++ [SvcRun "ImageServer" (newService config)] in
        match svc_Run_err env with
        | Some err =>
            (Some 1, t ++ [ElogError 1 "Service failed: %v" [LOSError err];
                           LogFatal [LOSError err]])
        | None => (Some 0, t ++ [EventlogClose])
        end
      end
    end
  end.

(** The [debug] case. *)
Definition run_debug (env : Env) : option Z * list effect :=
  match LoadConfig filepath_Dir filepath_Join json_Decode (loader env) "config.json" with
  | Err err => (Some 1, [LogFatal [LError err]])
  | Ok config =>
    let t := [LogPrintf "Debug mode: Serving %s on port %s\n"
                [LStr (Folder config); LStr (Port config)];
              ListenAndServe (createServer config)] in
    match ListenAndServe_err env with
    | Some err => (Some 1, t ++ [LogFatal [LOSError err]])
    | None => (None, t)
    end
  end.

(** [main]: the exit status of the process ([None] while it runs), the
    system it leaves and its effects. *)
Definition main (env : Env) (sys : System) : option Z * System * list effect :=
  match os_Args env with
  | _ :: arg :: _ =>
      if decide (arg = "install") then
        match installService (host env) sys with
        | (Some err, sys', calls) =>
            (Some 1, sys', [InstallService calls; LogFatal [LError err]])
        | (None, sys', calls) =>
            (Some 0, sys', [InstallService calls; Println "Service installed successfully"])
        end
      else if decide (arg = "remove") then
        match Remover.removeService (remover env) sys with
        | (Remover.Returned (Some err), sys', calls) =>
            (Some 1, sys', [RemoveService calls; LogFatal [LError err]])
        | (Remover.Returned None, sys', calls) =>
            (Some 0, sys', [RemoveService calls; Println "Service removed successfully"])
        | (Remover.Polling, sys', calls) => (None, sys', [RemoveService calls])
        end
      else if decide (arg = "debug") then
        let '(status, t) := run_debug env in (status, sys, t)
      else
        let '(status, t) := run_as_service env in (status, sys, t)
  | _ =>
      let '(status, t) := run_as_service env in (status, sys, t)
  end.

End main.

(** The command on the command line, if there is one. *)
Definition command (env : Env) : option string :=
  match os_Args env with
  | _ :: arg :: _ => Some arg
  | _ => None
  end.

(** Whether the command line asks for the service mode: no command, or one
    that [main] has no case for. *)
Definition service_mode (env : Env) : Prop :=
  command env <> Some "install" /\ command env <> Some "remove"
  /\ command env <> Some "debug".

Definition exit_status (x : option Z * System * list effect) : option Z := x.1.1.
Definition system_after (x : option Z * System * list effect) : System := x.1.2.
Definition effects (x : option Z * System * list effect) : list effect := x.2.

(** An effect that starts serving: the debug listener or the service. *)
Definition starts_listener (e : effect) : bool :=
  match e with
  | ListenAndServe _ | SvcRun _ _ => true
  | _ => false
  end.

End ServiceMain.

(** ** The entry point of the container variant: [main] *)

Module DockerMain.

Record Env : Type := mkEnv {
  os_Getenv : string -> string;        (* empty for a variable that is not set *)
  os_Stat : string -> option oserror;
  ListenAndServe_err : option oserror  (* [None] while the server serves *)
}.

Inductive effect : Type :=
  | LogPrintln (args : list string)
  | LogFatalf (format : string) (args : list string)
  | InServeFiles (e : Docker.effect).


Definition folder_of (env : Env) : string :=
  if decide (os_Getenv env "IMAGE_FOLDER" = EmptyString) then "/images"
  else os_Getenv env "IMAGE_FOLDER".

(** [main]: the exit status ([None] while the server serves), the default
    multiplexer and the effects. *)
Definition main (env : Env) (DefaultServeMux : gmap string http.Handler)
    : option Z * gmap string http.Handler * list effect :=
  let port := os_Getenv env "PORT" in
  let '(port, t) :=
    if decide (port = EmptyString) then
      ("8089",
       [LogPrintln ["PORT environment variable not set, using default port:"; "8089"]])
    else (port, []) in
  let folder := os_Getenv env "IMAGE_FOLDER" in
  let '(folder, t) :=
    if decide (folder = EmptyString) then
      ("/images",
       t ++ [LogPrintln ["IMAGE_FOLDER environment variable not set, using default folder:";
                         "/images"]])
    else (folder, t) in
  if os_IsNotExist (os_Stat env folder) then
    (Some 1, DefaultServeMux, t ++ [LogFatalf "The folder %s does not exist" [folder]])
  else
    let '(mux, served) :=
      Docker.ServeFiles port folder (ListenAndServe_err env) DefaultServeMux in
    (match ListenAndServe_err env with Some _ => Some 1 | None => None end,
     mux, t ++ (InServeFiles <$> served)).

Definition exit_status (x : option Z * gmap string http.Handler * list effect)
    : option Z := x.1.1.
Definition mux_after (x : option Z * gmap string http.Handler * list effect)
    : gmap string http.Handler := x.1.2.
Definition effects (x : option Z * gmap string http.Handler * list effect)
    : list effect := x.2.

(** The servers a run started. *)
Definition listeners (t : list effect) : list http.Server :=
  omap (fun e => match e with
                 | InServeFiles (Docker.ListenAndServe srv) => Some srv
                 | _ => None
                 end) t.

End DockerMain.

(** ** Properties named by the specification, and concrete inputs *)

Import Webserver.

(** A delivery that leaves the service loop running: an [Interrogate] or a
    request the loop has no case for. *)
Definition keeps_running (e : Event) : bool :=
  match e with
  | ErrChanRecv _ => false
  | ControlRecv c =>
      match svc.Cmd c with
      | svc.Stop | svc.Shutdown => false
      | _ => true
      end
  end.



Definition StartPending_status : svc.Status :=
  {| svc.State := svc.StartPending; svc.Accepts := cmdsAccepted; svc.WaitHint := 10000 |}.
Definition Running_status : svc.Status :=
  {| svc.State := svc.Running; svc.Accepts := cmdsAccepted; svc.WaitHint := 0 |}.
Definition StopPending_status : svc.Status :=
  {| svc.State := svc.StopPending; svc.Accepts := cmdsAccepted; svc.WaitHint := 10000 |}.

(** What the callback does on a stop or shutdown request, and on an error
    of the listener. *)
Definition stop_effects (shutdown_err : option oserror) : list effect :=
  [ElogInfo 1 (Lit "Service stop/shutdown received");
   ChangesSend StopPending_status;
   ContextWithTimeout (5 * time_Second);
   MuxLock; SetIsRunning false; MuxUnlock;
   ServerShutdown (5 * time_Second)]
  ++ match shutdown_err with
     | Some err => [ElogError 1 (Sprintf "Error during shutdown: %v" [AErr err])]
     | None => []
     end
  ++ [ElogInfo 1 (Lit "Service stopped successfully"); CancelShutdown; Cancel].

Definition failure_effects (err : oserror) : list effect :=
  [InListener (ElogError 1 (Sprintf "HTTP server error: %v" [AErr err]));
   InListener (ErrChanSend err);
   ElogError 1 (Sprintf "Server error: %v" [AErr err]);
   Cancel].

Definition interrogate_effects (c : svc.ChangeRequest) : list effect :=
  [ElogInfo 1 (Lit "Service interrogate received"); ChangesSend (svc.CurrentStatus c)].

(** What the callback does on a delivery that keeps the loop running. *)
Definition event_effects (e : Event) : list effect :=
  match e with
  | ErrChanRecv _ => []
  | ControlRecv c =>
      match svc.Cmd c with
      | svc.Interrogate => interrogate_effects c
      | _ => [ElogError 1 (Sprintf "Unexpected control request: %d" [AReq c])]
      end
  end.

(** What the callback and the goroutine do before the service loop. *)
Definition startup_effects (c : Config) : list effect :=
  [ChangesSend StartPending_status;
   ElogInfo 1 (Lit "Service Execute started");
   ContextWithCancel; Go;
   InListener (ElogInfo 1 (Sprintf "Starting HTTP server on port %s serving folder %s"
                             [AStr (Port c); AStr (Folder c)]));
   InListener MuxLock; InListener (SetIsRunning true); InListener MuxUnlock;
   InListener ServerListenAndServe;
   Sleep (1 * time_Second);
   ChangesSend Running_status;
   ElogInfo 1 (Lit "Service status set to running")].

(** The service value once the listener goroutine has started. *)
Definition started (c : Config) : Service :=
  {| server := createServer c; config := c; isRunning := true; runningMux := false |}.

(** A run with some effects in front of it. *)
Definition prepend {A} (t : list effect) (x : run A) : run A :=
  match x with
  | Done a s t' => Done a s (t ++ t')
  | Blocked w s t' => Blocked w s (t ++ t')
  end.




(** The recovery policy the script sets: restart after 60 s, three times,
    with the failure count reset after 24 hours. *)
Definition restart_policy : Recovery :=
  {| ResetPeriod := 86400;
     Actions := [(RestartService, 60000); (RestartService, 60000);
                 (RestartService, 60000)] |}.

Module Sample.

Definition cfg : Config := {| Port := "8089"; Folder := "/tmp/images" |}.

Definition Dir (p : string) : string := "C:\srv".
Definition Join (d f : string) : string := d +:+ "\" +:+ f.
Definition Decode (bytes : string) : result Config oserror :=
  if decide (bytes = "{}") then Ok {| Port := EmptyString; Folder := EmptyString |}
  else Ok cfg.

(** A machine with the configuration file and the folder in place. *)
Definition env : Env :=
  {| os_Executable := Ok "C:\srv\image_server.exe";
     os_Open := fun p => if decide (p = "C:\srv\config.json") then Ok "{...}"
                         else Err (ErrNotExist "The system cannot find the file specified.");
     os_Stat := fun p => if decide (p = "/tmp/images") then None
                         else Some (ErrNotExist "The system cannot find the path specified.") |}.

(** The same machine without the folder. *)
Definition env_no_folder : Env :=
  {| os_Executable := os_Executable env; os_Open := os_Open env;
     os_Stat := fun p => Some (ErrNotExist "The system cannot find the path specified.") |}.

Definition interrogate : svc.ChangeRequest :=
  {| svc.Cmd := svc.Interrogate; svc.CurrentStatus := Running_status |}.
Definition stop_request : svc.ChangeRequest :=
  {| svc.Cmd := svc.Stop; svc.CurrentStatus := Running_status |}.


Definition host : Host :=
  {| executable := Ok "C:\srv\image_server.exe";
     connect_fault := None; create_fault := None;
     eventlog_remove_denied := false; eventlog_install_denied := false |}.

Definition registration : Registration :=
  {| BinaryPath := "C:\old\image_server.exe";
     Conf := {| StartType_ := StartAutomatic; DisplayName := "Image Server";
                Description := "A simple image-serving web server.";
                ServiceStartName := "LocalSystem" |};
     Args := ["service"]; RecoveryPolicy := None |}.

Definition clean : System := {| services := ∅; eventSources := ∅ |}.

(** A system on which the service is installed already. *)
Definition installed : System :=
  {| services := {[ "ImageServer" := registration ]};
     eventSources := {[ "ImageServer" ]} |}.

End Sample.

(** More concrete inputs. *)
Module Scenario.

(** The sample machine with a folder that cannot be looked into. *)
Definition env_locked_folder : Env :=
  {| os_Executable := os_Executable Sample.env; os_Open := os_Open Sample.env;
     os_Stat := fun p => Some (ErrPermission "Access is denied.") |}.

(** A host on which the registry cannot be written. *)
Definition host_no_registry : Host :=
  {| executable := Ok "C:\srv\image_server.exe";
     connect_fault := None; create_fault := None;
     eventlog_remove_denied := true; eventlog_install_denied := true |}.

Definition stopped_status : svc.Status :=
  {| svc.State := svc.Stopped; svc.Accepts := 0; svc.WaitHint := 0 |}.

(** Removing a service that runs and stops at the third poll. *)
Definition remover : Remover.Env :=
  {| Remover.manager_fault := None;
     Remover.query := Ok Running_status;
     Remover.stop_fault := None;
     Remover.polls := [Ok StopPending_status; Ok StopPending_status; Ok stopped_status];
     Remover.delete_fault := None;
     Remover.registry_denied := false;
     Remover.missing_key_error := ErrNotExist "The system cannot find the file specified." |}.

(** The same, with a service that never stops within two polls. *)
Definition remover_waiting : Remover.Env :=
  {| Remover.manager_fault := None;
     Remover.query := Ok Running_status;
     Remover.stop_fault := None;
     Remover.polls := [Ok StopPending_status; Ok StopPending_status];
     Remover.delete_fault := None;
     Remover.registry_denied := false;
     Remover.missing_key_error := ErrNotExist "The system cannot find the file specified." |}.

(** The same, for a stopped service and a registry that cannot be written. *)
Definition remover_no_registry : Remover.Env :=
  {| Remover.manager_fault := None;
     Remover.query := Ok stopped_status;
     Remover.stop_fault := None;
     Remover.polls := [];
     Remover.delete_fault := None;
     Remover.registry_denied := true;
     Remover.missing_key_error := ErrNotExist "The system cannot find the file specified." |}.

(** Command lines of the service variant, on the sample machines. *)
Definition service_env (args : list string) (loader : Env) : ServiceMain.Env :=
  {| ServiceMain.os_Args := args;
     ServiceMain.host := Sample.host;
     ServiceMain.remover := remover;
     ServiceMain.loader := loader;
     ServiceMain.svc_IsWindowsService := Ok true;
     ServiceMain.eventlog_Open_fault := None;
     ServiceMain.ListenAndServe_err := None;
     ServiceMain.svc_Run_err := None |}.


(** A container whose folder is not mounted. *)
Definition container_no_folder : DockerMain.Env :=
  {| DockerMain.os_Getenv := fun k => EmptyString;
     DockerMain.os_Stat := fun p => Some (ErrNotExist "no such file or directory");
     DockerMain.ListenAndServe_err := None |}.

End Scenario.

(** A call is not in a given list of calls. *)
Ltac not_among_calls :=
  let H := fresh in
  intros H; repeat (apply elem_of_cons in H as [H | H]; [discriminate H|]);
  by apply elem_of_nil in H.

(** * Theorems *)

(** ** The configuration loader *)

Section LoadConfig_properties.

Variable Dir : string -> string.
Variable Join : string -> string -> string.
Variable Decode : string -> result Config oserror.

Local Abbreviation LoadConfig := (LoadConfig Dir Join Decode).
Local Abbreviation configPath := (configPath Dir Join).

(** [LoadConfig] succeeds exactly on an input that opens, decodes and
    passes the three checks, and then returns what was decoded. *)
Lemma LoadConfig_Ok_iff env filename c :
  LoadConfig env filename = Ok c <->
  exists exe file,
    os_Executable env = Ok exe /\
    os_Open env (configPath exe filename) = Ok file /\
    Decode file = Ok c /\
    Port c <> EmptyString /\ Folder c <> EmptyString /\
    os_IsNotExist (os_Stat env (Folder c)) = false.
Proof.
  unfold Webserver.LoadConfig. split.
  - destruct (os_Executable env) as [exe|] eqn:He; [|discriminate].
    fold (configPath exe filename).
    destruct (os_Open env (configPath exe filename)) as [file|] eqn:Ho; [|discriminate].
    destruct (Decode file) as [c'|] eqn:Hd; [|discriminate].
    repeat case_decide; try discriminate.
    destruct (os_IsNotExist _) eqn:Hs; [discriminate|].
    intros [= <-]. exists exe, file. by repeat split.
  - intros (exe & file & -> & Ho & Hd & Hp & Hf & Hs).
    fold (configPath exe filename). rewrite Ho, Hd.
    repeat case_decide; try contradiction. by rewrite Hs.
Qed.



End LoadConfig_properties.


(** ** The responder and the listener *)








(** ** The service lifecycle adapter *)

Lemma prepend_app {A} (t1 t2 : list effect) (x : run A) :
  prepend t1 (prepend t2 x) = prepend (t1 ++ t2) x.
Proof. destruct x; simpl; by rewrite app_assoc. Qed.

Lemma trace_prepend {A} (t : list effect) (x : run A) :
  trace (prepend t x) = t ++ trace x.
Proof. by destruct x. Qed.

Lemma final_prepend {A} (t : list effect) (x : run A) :
  final (prepend t x) = final x.
Proof. by destruct x. Qed.

Lemma returned_prepend {A} (t : list effect) (x : run A) :
  returned (prepend t x) = returned x.
Proof. by destruct x. Qed.

Lemma reported_app (t1 t2 : list effect) :
  reported (t1 ++ t2) = reported t1 ++ reported t2.
Proof. apply omap_app. Qed.

Section Execute_properties.

Variable server_Shutdown : Z -> option oserror.

Local Abbreviation serviceLoop := (serviceLoop server_Shutdown).
Local Abbreviation Execute := (Execute server_Shutdown).

(** One turn of the loop on a delivery that keeps it running. *)
Lemma serviceLoop_keeps_running e r s :
  keeps_running e = true ->
  serviceLoop (e :: r) s = prepend (event_effects e) (serviceLoop r s).
Proof.
  destruct e as [err|c]; [discriminate|].
  unfold keeps_running, event_effects. simpl.
  destruct (svc.Cmd c); try discriminate; intros _;
    unfold mbind, M_mbind, M_bind; simpl;
    by destruct (Webserver.serviceLoop server_Shutdown r s).
Qed.

Lemma serviceLoop_app pre rest s :
  forallb keeps_running pre = true ->
  serviceLoop (pre ++ rest) s
    = prepend (pre ≫= event_effects) (serviceLoop rest s).
Proof.
  induction pre as [|e pre IH].
  - intros _. simpl. by destruct (serviceLoop rest s).
  - intros [He Hpre]%andb_prop.
    change ((e :: pre) ++ rest) with (e :: (pre ++ rest)).
    rewrite serviceLoop_keeps_running by done.
    rewrite IH by done. apply prepend_app.
Qed.

(** The loop on a stop or shutdown request, with the mutex free. *)
Lemma serviceLoop_stop c r s :
  svc.Cmd c = svc.Stop \/ svc.Cmd c = svc.Shutdown ->
  runningMux s = false ->
  serviceLoop (ControlRecv c :: r) s
    = Done (false, 0)
        {| server := server s; config := config s;
           isRunning := false; runningMux := false |}
        (stop_effects (server_Shutdown (5 * time_Second))).
Proof.
  intros Hc Hm. simpl.
  assert (Webserver.stop server_Shutdown s
          = Done (false, 0)
              {| server := server s; config := config s;
                 isRunning := false; runningMux := false |}
              (stop_effects (server_Shutdown (5 * time_Second)))) as Hstop.
  { unfold stop, stop_effects, mbind, M_mbind, M_bind, Lock. simpl. rewrite Hm. simpl.
    by destruct (server_Shutdown (5 * time_Second)). }
  by destruct Hc as [-> | ->].
Qed.

(** The loop on an error of the listener. *)
Lemma serviceLoop_error err r s :
  serviceLoop (ErrChanRecv err :: r) s = Done (false, 1) s (failure_effects err).
Proof. reflexivity. Qed.

(** [Execute] up to the service loop. *)
Lemma Execute_startup r c :
  Execute r (newService c) = prepend (startup_effects c) (serviceLoop r (started c)).
Proof.
  unfold Webserver.Execute, mbind, M_mbind, M_bind. simpl.
  fold (started c). by destruct (serviceLoop r (started c)).
Qed.

End Execute_properties.

(** *** Order of the reported statuses *)






(** While only deliveries that keep the loop running have arrived, the
    callback waits on its [select] with the listener marked as running. *)
Lemma Execute_keeps_running server_Shutdown cfg pre :
  forallb keeps_running pre = true ->
  Execute server_Shutdown pre (newService cfg)
    = Blocked OnSelect (started cfg) (startup_effects cfg ++ (pre ≫= event_effects)).
Proof.
  intros Hpre. rewrite Execute_startup.
  rewrite <- (app_nil_r pre) at 1. rewrite serviceLoop_app by done.
  cbn [Webserver.serviceLoop block prepend]. by rewrite app_nil_r.
Qed.

(** *** Stop and shutdown *)

(** C2: a stop or shutdown request delivered while the service is running
    makes the callback report [StopPending], then set [isRunning] to false
    between taking and releasing the mutex, then call the server's [Shutdown]
    with a timeout of 5 s, and return with status 0, whether [Shutdown]
    returns an error or not. *)
Theorem Execute_stop server_Shutdown cfg pre c rest :
  forallb keeps_running pre = true ->
  svc.Cmd c = svc.Stop \/ svc.Cmd c = svc.Shutdown ->
  let x := Execute server_Shutdown (pre ++ ControlRecv c :: rest) (newService cfg) in
  let before := Execute server_Shutdown pre (newService cfg) in
  returned x = Some (false, 0)
  /\ isRunning (final before) = true
  /\ isRunning (final x) = false
  /\ trace x = trace before ++ stop_effects (server_Shutdown (5 * time_Second))
  /\ exists log,
       stop_effects (server_Shutdown (5 * time_Second))
       = ElogInfo 1 (Lit "Service stop/shutdown received")
         :: ChangesSend StopPending_status
         :: ContextWithTimeout (5 * time_Second)
         :: MuxLock :: SetIsRunning false :: MuxUnlock
         :: ServerShutdown (5 * time_Second)
         :: log ++ [ElogInfo 1 (Lit "Service stopped successfully");
                    CancelShutdown; Cancel].
Proof.
  intros Hpre Hc. cbv zeta.
  rewrite (Execute_keeps_running _ _ pre) by done.
  rewrite Execute_startup, serviceLoop_app by done.
  rewrite serviceLoop_stop by done.
  cbn [prepend returned final trace isRunning started].
  split; [reflexivity|]. split; [reflexivity|]. split; [reflexivity|].
  split; [by rewrite app_assoc|].
  unfold stop_effects. eexists. reflexivity.
Qed.

Lemma Execute_stop_witness :
  let x := Execute (fun _ => Some (ErrOther "context deadline exceeded"))
             [ControlRecv Sample.interrogate; ControlRecv Sample.stop_request]
             (newService Sample.cfg) in
  returned x = Some (false, 0) /\ isRunning (final x) = false.
Proof.
  destruct (Execute_stop (fun _ => Some (ErrOther "context deadline exceeded"))
              Sample.cfg [ControlRecv Sample.interrogate] Sample.stop_request []
              eq_refl (or_introl eq_refl)) as (Hret & _ & Hflag & _).
  split; [exact Hret | exact Hflag].
Defined.

(** *** Errors of the listener *)






(** *** Interrogate *)

Lemma interrogate_keeps_running (cs : list svc.ChangeRequest) :
  Forall (fun c => svc.Cmd c = svc.Interrogate) cs ->
  forallb keeps_running (ControlRecv <$> cs) = true
  /\ (ControlRecv <$> cs) ≫= event_effects = cs ≫= interrogate_effects.
Proof.
  induction 1 as [|c cs Hc _ [IH1 IH2]]; [done|].
  split.
  - simpl. unfold keeps_running at 1. by rewrite Hc.
  - rewrite fmap_cons, !bind_cons, IH2. unfold event_effects. by rewrite Hc.
Qed.

Lemma reported_interrogate_effects (cs : list svc.ChangeRequest) :
  reported (cs ≫= interrogate_effects) = svc.CurrentStatus <$> cs.
Proof.
  induction cs as [|c cs IH]; [done|].
  rewrite bind_cons, reported_app, IH. reflexivity.
Qed.

(** C6: any number of [Interrogate] requests delivered to the running
    service loop leave the service value, with its [isRunning] flag, as it
    was, and each is answered with exactly the status it carries; what the loop
    does on the deliveries that follow is the same after [n] requests as after
    one. *)
Theorem Interrogate_idempotent server_Shutdown s (cs : list svc.ChangeRequest) rest :
  Forall (fun c => svc.Cmd c = svc.Interrogate) cs ->
  let x := serviceLoop server_Shutdown ((ControlRecv <$> cs) ++ rest) s in
  let y := serviceLoop server_Shutdown rest s in
  final (serviceLoop server_Shutdown (ControlRecv <$> cs) s) = s
  /\ returned (serviceLoop server_Shutdown (ControlRecv <$> cs) s) = None
  /\ reported (trace (serviceLoop server_Shutdown (ControlRecv <$> cs) s))
     = svc.CurrentStatus <$> cs
  /\ trace x = (cs ≫= interrogate_effects) ++ trace y
  /\ final x = final y
  /\ returned x = returned y
  /\ forall c n, (1 <= n)%nat -> cs = replicate n c ->
       final x = final (serviceLoop server_Shutdown (ControlRecv c :: rest) s)
       /\ returned x = returned (serviceLoop server_Shutdown (ControlRecv c :: rest) s)
       /\ reported (trace x) = replicate n (svc.CurrentStatus c) ++ reported (trace y).
Proof.
  intros Hcs. cbv zeta.
  destruct (interrogate_keeps_running cs Hcs) as [Hkeep Heff].
  assert (serviceLoop server_Shutdown ((ControlRecv <$> cs) ++ rest) s
          = prepend (cs ≫= interrogate_effects) (serviceLoop server_Shutdown rest s))
    as ->.
  { rewrite serviceLoop_app by done. by rewrite Heff. }
  assert (serviceLoop server_Shutdown (ControlRecv <$> cs) s
          = Blocked OnSelect s (cs ≫= interrogate_effects)) as ->.
  { rewrite <- (app_nil_r (ControlRecv <$> cs)).
    rewrite serviceLoop_app by done. rewrite Heff.
    cbn [Webserver.serviceLoop block prepend]. by rewrite app_nil_r. }
  rewrite trace_prepend, final_prepend, returned_prepend.
  split; [reflexivity|]. split; [reflexivity|].
  split; [apply reported_interrogate_effects|].
  repeat (split; [reflexivity|]).
  intros c n Hn ->.
  assert (svc.Cmd c = svc.Interrogate) as Hc.
  { destruct n; [lia|]. by inversion Hcs. }
  rewrite serviceLoop_keeps_running by (unfold keeps_running; by rewrite Hc).
  rewrite final_prepend, returned_prepend.
  split; [reflexivity|]. split; [reflexivity|].
  by rewrite reported_app, reported_interrogate_effects, fmap_replicate.
Qed.

Lemma Interrogate_idempotent_witness :
  let x := serviceLoop (fun _ => None)
             ((ControlRecv <$> replicate 3 Sample.interrogate)
                ++ [ControlRecv Sample.stop_request]) (started Sample.cfg) in
  final (serviceLoop (fun _ => None) (ControlRecv <$> replicate 3 Sample.interrogate)
           (started Sample.cfg)) = started Sample.cfg
  /\ returned x = Some (false, 0)
  /\ reported (trace x) = replicate 3 Running_status ++ [StopPending_status].
Proof.
  destruct (Interrogate_idempotent (fun _ => None) (started Sample.cfg)
              (replicate 3 Sample.interrogate) [ControlRecv Sample.stop_request])
    as (Hfinal & _ & _ & _ & _ & _ & Hn).
  { repeat constructor. }
  destruct (Hn Sample.interrogate 3%nat) as (_ & Hret & Hrep); [lia | reflexivity |].
  split; [exact Hfinal|]. split; [exact Hret | exact Hrep].
Defined.

(** ** The installer *)

Lemma services_eventlog_Remove h src sys :
  services (eventlog_Remove h src sys) = services sys.
Proof. unfold eventlog_Remove. by destruct (eventlog_remove_denied h). Qed.

Lemma access_denied_is_fatal :
  strings_Contains (Error access_denied) "registry key already exists" = false.
Proof. vm_compute. reflexivity. Qed.

Lemma key_exists_is_tolerated :
  strings_Contains
    (Error (ErrOther (addKeyName +:+ "\" +:+ "ImageServer" +:+ " registry key already exists")))
    "registry key already exists" = true.
Proof. vm_compute. reflexivity. Qed.

(** When [installService] returns nil the service is registered for the
    path of the executable, with no recovery policy yet, and the event source
    is registered. *)
Lemma installService_success h sys :
  install_error (installService h sys) = None ->
  exists exe,
    executable h = Ok exe
    /\ services sys !! "ImageServer" = None
    /\ services (install_system (installService h sys))
       = <["ImageServer" := new_registration exe]> (services sys)
    /\ "ImageServer" ∈ eventSources (install_system (installService h sys)).
Proof.
  pose proof (services_eventlog_Remove h "ImageServer" sys) as Hrm.
  unfold installService, install_error, install_system. cbv zeta.
  destruct (executable h) as [exe|]; [|discriminate].
  destruct (connect_fault h); [discriminate|].
  rewrite Hrm.
  destruct (services sys !! "ImageServer") eqn:Hsvc; [discriminate|].
  unfold mgr_CreateService. rewrite Hrm, Hsvc.
  destruct (create_fault h); [discriminate|].
  unfold eventlog_InstallAsEventCreate. cbn [services eventSources].
  destruct (eventlog_install_denied h).
  { rewrite access_denied_is_fatal. discriminate. }
  case_decide as Hin.
  - rewrite key_exists_is_tolerated. cbn [negb fst snd services eventSources].
    intros _. by exists exe.
  - cbn [fst snd services eventSources]. intros _. exists exe.
    repeat split; set_solver.
Qed.

(** [installService] on its own sets no recovery policy: that is the
    script's part. *)
Lemma installService_sets_no_recovery h sys :
  install_error (installService h sys) = None ->
  exists reg,
    services (install_system (installService h sys)) !! "ImageServer" = Some reg
    /\ RecoveryPolicy reg = None.
Proof.
  intros (exe & _ & _ & -> & _)%installService_success.
  exists (new_registration exe). by rewrite lookup_insert_eq.
Qed.

(** C8: a successful install registers the path of the executable as the
    service [ImageServer], started automatically, with the policy to restart
    the service 60 s after a failure and to reset the failure count after 24
    hours, and registers the event source [ImageServer]. *)
Theorem install_registers_service h sys :
  install_error (installService h sys) = None ->
  let sys' := (ManageService.process_commands_install h sys).2 in
  exists exe reg,
    executable h = Ok exe
    /\ services sys' !! "ImageServer" = Some reg
    /\ BinaryPath reg = exe
    /\ Args reg = ["service"]
    /\ StartType_ (Conf reg) = StartAutomatic
    /\ RecoveryPolicy reg = Some restart_policy
    /\ "ImageServer" ∈ eventSources sys'.
Proof.
  intros Hok. cbv zeta.
  destruct (installService_success h sys Hok) as (exe & Hexe & _ & Hsvc & Hsrc).
  unfold ManageService.process_commands_install, main_install.
  unfold install_error, install_system in *.
  destruct (installService h sys) as [[err sys1] calls]. simpl in Hok, Hsvc, Hsrc.
  subst err. rewrite decide_True by reflexivity.
  exists exe. eexists. split; [exact Hexe|]. split.
  - unfold ManageService.sc_failure, ManageService.sc_config_start.
    cbn [snd services]. rewrite !lookup_alter_eq, Hsvc, lookup_insert_eq.
    reflexivity.
  - by repeat split.
Qed.

Lemma install_registers_service_witness :
  exists reg,
    services (ManageService.process_commands_install Sample.host Sample.clean).2
      !! "ImageServer" = Some reg
    /\ BinaryPath reg = "C:\srv\image_server.exe"
    /\ RecoveryPolicy reg = Some restart_policy.
Proof.
  destruct (install_registers_service Sample.host Sample.clean)
    as (exe & reg & Hexe & Hreg & Hpath & _ & _ & Hrec & _).
  { vm_compute. reflexivity. }
  exists reg. split; [exact Hreg|]. split; [|exact Hrec].
  rewrite Hpath. by injection Hexe.
Defined.

(** *** Installing over an existing registration *)

(** C9: when the service [ImageServer] is registered already,
    [installService] returns an error, the already-exists error once it has
    reached the service manager, and creates no registration: the registrations
    are what they were. *)
Theorem install_refuses_registered_service h sys reg :
  services sys !! "ImageServer" = Some reg ->
  let x := installService h sys in
  is_Some (install_error x)
  /\ services (install_system x) = services sys
  /\ (forall exe, MgrCreateService "ImageServer" exe ∉ install_calls x)
  /\ (forall exe, executable h = Ok exe -> connect_fault h = None ->
        install_error x = Some already_exists).
Proof.
  intros Hreg. cbv zeta.
  pose proof (services_eventlog_Remove h "ImageServer" sys) as Hrm.
  unfold installService, install_error, install_system, install_calls. cbv zeta.
  destruct (executable h) as [exe|err].
  - destruct (connect_fault h) as [err|].
    + cbn [fst snd]. rewrite Hrm. repeat split; [by eexists | | discriminate].
      intros exe'. simpl. not_among_calls.
    + rewrite Hrm, Hreg. cbn [fst snd]. rewrite Hrm.
      repeat split; [by eexists | ].
      intros exe'. simpl. not_among_calls.
  - cbn [fst snd]. rewrite Hrm. repeat split; [by eexists | | discriminate].
    intros exe'. simpl. not_among_calls.
Qed.

Lemma install_refuses_registered_service_witness :
  install_error (installService Sample.host Sample.installed) = Some already_exists
  /\ services (install_system (installService Sample.host Sample.installed))
     = services Sample.installed.
Proof.
  destruct (install_refuses_registered_service Sample.host Sample.installed
              Sample.registration) as (_ & Hsame & _ & Herr).
  { apply lookup_singleton_eq. }
  split; [|exact Hsame].
  apply (Herr "C:\srv\image_server.exe"); reflexivity.
Defined.

(** C10: the first call of [installService] removes the event source
    [ImageServer], before the service manager is contacted and before the
    existing service is looked up; so when install fails because the service
    exists, the event source is gone, and a system that had it is not left as it
    was. *)
Theorem install_removes_event_source_first h sys :
  (exists rest,
      install_calls (installService h sys) = EventlogRemove "ImageServer" :: rest)
  /\ (forall reg exe,
        services sys !! "ImageServer" = Some reg ->
        eventlog_remove_denied h = false ->
        executable h = Ok exe -> connect_fault h = None ->
        let x := installService h sys in
        install_error x = Some already_exists
        /\ install_calls x
           = [EventlogRemove "ImageServer"; OsExecutable; MgrConnect;
              MgrOpenService "ImageServer"; ServiceClose; MgrDisconnect]
        /\ ("ImageServer" ∉ eventSources (install_system x))
        /\ ("ImageServer" ∈ eventSources sys -> install_system x <> sys)).
Proof.
  split.
  - unfold installService, install_calls. cbv zeta.
    destruct (executable h); [|by eexists].
    destruct (connect_fault h); [by eexists|].
    destruct (services _ !! _); [by eexists|].
    destruct (mgr_CreateService _ _ _ _ _ _) as [[?|] ?]; [by eexists|].
    destruct (eventlog_InstallAsEventCreate _ _ _) as [[?|] ?]; [|by eexists].
    destruct (negb _); by eexists.
  - intros reg exe Hreg Hrm Hexe Hconn. cbv zeta.
    pose proof (services_eventlog_Remove h "ImageServer" sys) as Hsvc.
    unfold installService, install_error, install_system, install_calls. cbv zeta.
    rewrite Hexe, Hconn, Hsvc, Hreg. cbn [fst snd].
    split; [reflexivity|]. split; [reflexivity|].
    unfold eventlog_Remove. rewrite Hrm.
    split.
    + cbn [eventSources]. rewrite elem_of_difference, elem_of_singleton. tauto.
    + intros Hin Heq. rewrite <- Heq in Hin. cbn [eventSources] in Hin.
      revert Hin. rewrite elem_of_difference, elem_of_singleton. tauto.
Qed.

Lemma install_removes_event_source_first_witness :
  install_error (installService Sample.host Sample.installed) = Some already_exists
  /\ ("ImageServer" ∉
        eventSources (install_system (installService Sample.host Sample.installed)))
  /\ install_system (installService Sample.host Sample.installed) <> Sample.installed.
Proof.
  destruct (install_removes_event_source_first Sample.host Sample.installed)
    as [_ Hpath].
  destruct (Hpath Sample.registration "C:\srv\image_server.exe"
              (lookup_singleton_eq _ _) eq_refl eq_refl eq_refl)
    as (Herr & _ & Hgone & Hchanged).
  split; [exact Herr|]. split; [exact Hgone|].
  apply Hchanged. unfold Sample.installed. cbn [eventSources].
  by apply elem_of_singleton.
Defined.

(** * Further properties *)

(** ** The service loop as a whole *)

(** The deliveries either all keep the loop running, or there is a first
    one that ends it. *)
Lemma first_terminator (r : list Event) :
  forallb keeps_running r = true
  \/ exists pre e rest,
       r = pre ++ e :: rest /\ forallb keeps_running pre = true
       /\ keeps_running e = false.
Proof.
  induction r as [|e r IH]; [by left|].
  destruct (keeps_running e) eqn:He.
  - destruct IH as [IH | (pre & e' & rest & -> & Hpre & He')].
    + left. simpl. by rewrite He.
    + right. exists (e :: pre), e', rest. simpl. by rewrite He.
  - right. by exists [], e, r.
Qed.

Lemma terminator_cases (e : Event) :
  keeps_running e = false ->
  (exists err, e = ErrChanRecv err)
  \/ (exists q, e = ControlRecv q /\ (svc.Cmd q = svc.Stop \/ svc.Cmd q = svc.Shutdown)).
Proof.
  destruct e as [err|q]; [by left; eexists|].
  unfold keeps_running. destruct (svc.Cmd q) eqn:Hq; try discriminate; right; eauto.
Qed.

(** The three ways a run of [Execute] on a fresh service value can go. *)
Lemma Execute_cases server_Shutdown r c :
  (forallb keeps_running r = true
   /\ Execute server_Shutdown r (newService c)
      = Blocked OnSelect (started c) (startup_effects c ++ (r ≫= event_effects)))
  \/ (exists pre q rest,
        r = pre ++ ControlRecv q :: rest /\ forallb keeps_running pre = true
        /\ keeps_running (ControlRecv q) = false
        /\ Execute server_Shutdown r (newService c)
           = Done (false, 0)
               {| server := createServer c; config := c;
                  isRunning := false; runningMux := false |}
               (startup_effects c ++ (pre ≫= event_effects)
                  ++ stop_effects (server_Shutdown (5 * time_Second))))
  \/ (exists pre err rest,
        r = pre ++ ErrChanRecv err :: rest /\ forallb keeps_running pre = true
        /\ Execute server_Shutdown r (newService c)
           = Done (false, 1) (started c)
               (startup_effects c ++ (pre ≫= event_effects) ++ failure_effects err)).
Proof.
  destruct (first_terminator r) as [Hr | (pre & e & rest & -> & Hpre & He)].
  - left. split; [done|]. by apply Execute_keeps_running.
  - right. rewrite Execute_startup, serviceLoop_app by done.
    destruct (terminator_cases e He) as [(err & ->) | (q & -> & Hq)].
    + right. exists pre, err, rest. split; [reflexivity|]. split; [done|].
      by rewrite serviceLoop_error.
    + left. exists pre, q, rest. split; [reflexivity|]. split; [done|].
      split; [done|]. by rewrite serviceLoop_stop.
Qed.

Lemma forallb_terminated pre e rest :
  keeps_running e = false -> forallb keeps_running (pre ++ e :: rest) = false.
Proof.
  intros He. rewrite forallb_app. simpl. rewrite He. apply andb_false_r.
Qed.

(** X1: [Execute] on the service value of [main] either returns, with
    status 0 or 1, exactly when some delivery ends the loop, or waits on its
    [select]; it never blocks on the mutex, leaves the mutex free, and
    whenever it returns its last effect is the deferred [cancel]. *)
Theorem Execute_returns_or_waits server_Shutdown r c :
  match Execute server_Shutdown r (newService c) with
  | Done (b, code) s t =>
      forallb keeps_running r = false /\ b = false /\ (code = 0 \/ code = 1)
      /\ runningMux s = false /\ last t = Some Cancel
  | Blocked w s t =>
      forallb keeps_running r = true /\ w = OnSelect /\ s = started c
  end.
Proof.
  destruct (Execute_cases server_Shutdown r c)
    as [[Hr ->] | [(pre & q & rest & -> & Hpre & Hq & ->) | (pre & err & rest & -> & Hpre & ->)]].
  - done.
  - split; [by apply forallb_terminated|]. repeat split; [by left|].
    rewrite !last_app. unfold stop_effects.
    by destruct (server_Shutdown (5 * time_Second)).
  - split; [by apply forallb_terminated|]. repeat split; [by right|].
    by rewrite !last_app.
Qed.

(** X2: nothing that is delivered after the first stop request, shutdown
    request or listener error has any effect on the run. *)
Theorem Execute_ignores_later_deliveries server_Shutdown c pre e rest :
  forallb keeps_running pre = true ->
  keeps_running e = false ->
  Execute server_Shutdown (pre ++ e :: rest) (newService c)
    = Execute server_Shutdown (pre ++ [e]) (newService c).
Proof.
  intros Hpre He. rewrite !Execute_startup, !serviceLoop_app by done.
  destruct (terminator_cases e He) as [(err & ->) | (q & -> & Hq)].
  - by rewrite !serviceLoop_error.
  - by rewrite !serviceLoop_stop.
Qed.

Lemma Execute_ignores_later_deliveries_witness :
  Execute (fun _ => None)
    [ControlRecv Sample.interrogate; ControlRecv Sample.stop_request;
     ControlRecv Sample.interrogate; ErrChanRecv (ErrOther "closed")]
    (newService Sample.cfg)
  = Execute (fun _ => None)
      [ControlRecv Sample.interrogate; ControlRecv Sample.stop_request]
      (newService Sample.cfg).
Proof.
  exact (Execute_ignores_later_deliveries (fun _ => None) Sample.cfg
           [ControlRecv Sample.interrogate] (ControlRecv Sample.stop_request)
           [ControlRecv Sample.interrogate; ErrChanRecv (ErrOther "closed")]
           eq_refl eq_refl).
Defined.

(** X3: the flag [isRunning] is false at the end of a run exactly when
    the callback returned with status 0; after a listener error, and while the
    loop waits, it is still true. *)
Theorem isRunning_cleared_iff_stopped server_Shutdown r c :
  let x := Execute server_Shutdown r (newService c) in
  isRunning (final x) = false <-> returned x = Some (false, 0).
Proof.
  cbv zeta.
  destruct (Execute_cases server_Shutdown r c)
    as [[Hr ->] | [(pre & q & rest & -> & Hpre & Hq & ->) | (pre & err & rest & -> & Hpre & ->)]];
    simpl; split; (done || discriminate).
Qed.

(** X4: control requests other than [Interrogate], [Stop] and [Shutdown]
    (a pause, a continue, ...) are logged as errors and otherwise ignored: no
    status is sent for them and the run goes on as if they had not come. *)
Theorem unexpected_requests_ignored server_Shutdown s (cs : list svc.ChangeRequest) rest :
  Forall (fun c => svc.Cmd c <> svc.Interrogate /\ svc.Cmd c <> svc.Stop
                   /\ svc.Cmd c <> svc.Shutdown) cs ->
  let x := serviceLoop server_Shutdown ((ControlRecv <$> cs) ++ rest) s in
  let y := serviceLoop server_Shutdown rest s in
  trace x
    = ((fun c => ElogError 1 (Sprintf "Unexpected control request: %d" [AReq c])) <$> cs)
      ++ trace y
  /\ reported (trace x) = reported (trace y)
  /\ final x = final y
  /\ returned x = returned y.
Proof.
  intros Hcs. cbv zeta.
  assert (forallb keeps_running (ControlRecv <$> cs) = true
          /\ (ControlRecv <$> cs) ≫= event_effects
             = (fun c => ElogError 1 (Sprintf "Unexpected control request: %d" [AReq c]))
                 <$> cs) as [Hkeep Heff].
  { induction Hcs as [|c cs (Hi & Hs & Hd) _ [IH1 IH2]]; [done|]. split.
    - rewrite fmap_cons. cbn [forallb]. rewrite IH1. unfold keeps_running.
      by destruct (svc.Cmd c).
    - rewrite !fmap_cons, bind_cons, IH2. unfold event_effects.
      by destruct (svc.Cmd c). }
  rewrite serviceLoop_app by done. rewrite Heff.
  rewrite trace_prepend, final_prepend, returned_prepend, reported_app.
  repeat split. 
  assert (forall l : list svc.ChangeRequest,
             reported ((fun c => ElogError 1
                         (Sprintf "Unexpected control request: %d" [AReq c])) <$> l) = [])
    as ->; [|done].
  induction l; [done|]. by rewrite fmap_cons.
Qed.

Lemma unexpected_requests_ignored_witness :
  let pause := {| svc.Cmd := svc.Pause; svc.CurrentStatus := Running_status |} in
  let x := serviceLoop (fun _ => None)
             ((ControlRecv <$> [pause; pause]) ++ [ControlRecv Sample.stop_request])
             (started Sample.cfg) in
  reported (trace x) = [StopPending_status] /\ returned x = Some (false, 0).
Proof.
  cbv zeta.
  destruct (unexpected_requests_ignored (fun _ => None) (started Sample.cfg)
              [ {| svc.Cmd := svc.Pause; svc.CurrentStatus := Running_status |};
                {| svc.Cmd := svc.Pause; svc.CurrentStatus := Running_status |} ]
              [ControlRecv Sample.stop_request])
    as (_ & Hrep & _ & Hret).
  { repeat constructor; discriminate. }
  split; [exact Hrep | exact Hret].
Defined.

(** ** The configuration loader, further *)

Section LoadConfig_further.

Variable Dir : string -> string.
Variable Join : string -> string -> string.
Variable Decode : string -> result Config oserror.

Local Abbreviation LoadConfig := (LoadConfig Dir Join Decode).
Local Abbreviation configPath := (configPath Dir Join).

(** X5: every configuration the loader returns has a non-empty port and a
    non-empty folder, and its folder was not reported missing. *)
Theorem LoadConfig_result_is_valid env filename c :
  LoadConfig env filename = Ok c ->
  Port c <> EmptyString /\ Folder c <> EmptyString
  /\ ~ folder_missing env c.
Proof.
  intros (exe & file & _ & _ & _ & Hp & Hf & Hs)%LoadConfig_Ok_iff.
  repeat split; [done | done |].
  intros (t & Ht). rewrite Ht in Hs. discriminate.
Qed.

(** X6: the folder is only rejected when [os.Stat] says that it does not
    exist: when [os.Stat] fails for another reason (no permission, say) the
    configuration is accepted although the folder was not seen. *)
Theorem LoadConfig_tolerates_Stat_errors env filename exe file c err :
  os_Executable env = Ok exe ->
  os_Open env (configPath exe filename) = Ok file ->
  Decode file = Ok c ->
  Port c <> EmptyString -> Folder c <> EmptyString ->
  os_Stat env (Folder c) = Some err ->
  (forall t, err <> ErrNotExist t) ->
  LoadConfig env filename = Ok c.
Proof.
  intros He Ho Hd Hp Hf Hs Hne. apply LoadConfig_Ok_iff.
  exists exe, file. repeat split; try done.
  rewrite Hs. destruct err; try done. by destruct (Hne text).
Qed.

(** X7: an error of the loader is one of six, in this order of
    precedence: the path of the executable, opening the file, decoding it, an
    empty port, an empty folder, a folder that does not exist; the port is
    checked before the folder and the folder is looked up last. *)
Theorem LoadConfig_error_cases env filename e :
  LoadConfig env filename = Err e ->
  (exists err, os_Executable env = Err err
     /\ e = Errorf "failed to get executable path: %w" [AErr err])
  \/ exists exe, os_Executable env = Ok exe /\
     ((exists err, os_Open env (configPath exe filename) = Err err
         /\ e = Errorf "failed to open config file %s: %w"
                  [AStr (configPath exe filename); AErr err])
      \/ exists file, os_Open env (configPath exe filename) = Ok file /\
         ((exists err, Decode file = Err err
             /\ e = Errorf "failed to decode config: %w" [AErr err])
          \/ exists c, Decode file = Ok c /\
             (Port c = EmptyString /\ e = Errorf "port cannot be empty" []
              \/ Port c <> EmptyString /\ Folder c = EmptyString
                 /\ e = Errorf "folder cannot be empty" []
              \/ Port c <> EmptyString /\ Folder c <> EmptyString
                 /\ folder_missing env c
                 /\ e = Errorf "folder does not exist: %s" [AStr (Folder c)]))).
Proof.
  unfold Webserver.LoadConfig.
  destruct (os_Executable env) as [exe|err]; [|intros [= <-]; left; eauto].
  fold (configPath exe filename). right. exists exe. split; [done|]. revert H.
  destruct (os_Open env (configPath exe filename)) as [file|err];
    [|intros [= <-]; left; eauto].
  right. exists file. split; [done|]. revert H.
  destruct (Decode file) as [c|err]; [|intros [= <-]; left; eauto].
  right. exists c. split; [done|]. revert H.
  case_decide as Hp; [intros [= <-]; by left|].
  case_decide as Hf; [intros [= <-]; right; by left|].
  unfold folder_missing.
  destruct (os_Stat env (Folder c)) as [[t| |]|]; simpl; try discriminate.
  intros [= <-]. right. right. eauto 10.
Qed.

End LoadConfig_further.

Lemma LoadConfig_result_is_valid_witness :
  Port Sample.cfg <> EmptyString /\ Folder Sample.cfg <> EmptyString
  /\ ~ folder_missing Sample.env Sample.cfg.
Proof.
  apply (LoadConfig_result_is_valid Sample.Dir Sample.Join Sample.Decode
           Sample.env "config.json").
  reflexivity.
Defined.

Lemma LoadConfig_tolerates_Stat_errors_witness :
  Webserver.LoadConfig Sample.Dir Sample.Join Sample.Decode
    Scenario.env_locked_folder "config.json" = Ok Sample.cfg.
Proof.
  apply (LoadConfig_tolerates_Stat_errors Sample.Dir Sample.Join Sample.Decode
           Scenario.env_locked_folder "config.json" "C:\srv\image_server.exe" "{...}"
           Sample.cfg (ErrPermission "Access is denied."));
    [reflexivity | reflexivity | reflexivity | discriminate | discriminate
    | reflexivity | discriminate].
Defined.

Lemma LoadConfig_error_cases_witness :
  exists c, Sample.Decode "{...}" = Ok c /\ folder_missing Sample.env_no_folder c.
Proof.
  destruct (LoadConfig_error_cases Sample.Dir Sample.Join Sample.Decode
              Sample.env_no_folder "config.json"
              (Errorf "folder does not exist: %s" [AStr "/tmp/images"]) eq_refl)
    as [(err & He & _) | (exe & He & [(err & Ho & _) | (file & Ho & Hcases)])];
    [discriminate He | discriminate Ho |].
  injection Ho as <-.
  destruct Hcases as [(err & Hd & _) | (c & Hd & [(Hp & _) | [(_ & Hf & _) | (_ & _ & Hm & _)]])].
  - discriminate Hd.
  - injection Hd as <-. discriminate Hp.
  - injection Hd as <-. discriminate Hf.
  - by exists c.
Defined.

(** ** The installer, further *)

(** On every error [installService] leaves the registrations as they
    were, and the event sources as the first call left them. *)
Lemma installService_error_keeps_services h sys :
  is_Some (install_error (installService h sys)) ->
  services (install_system (installService h sys)) = services sys
  /\ eventSources (install_system (installService h sys))
     = eventSources (eventlog_Remove h "ImageServer" sys).
Proof.
  pose proof (services_eventlog_Remove h "ImageServer" sys) as Hrm.
  unfold installService, install_error, install_system. cbv zeta.
  destruct (executable h) as [exe|]; [|done].
  destruct (connect_fault h); [done|].
  rewrite Hrm.
  destruct (services sys !! "ImageServer") eqn:Hsvc; [done|].
  unfold mgr_CreateService. rewrite Hrm, Hsvc.
  destruct (create_fault h); [done|].
  unfold eventlog_InstallAsEventCreate. cbn [services eventSources].
  destruct (eventlog_install_denied h).
  { rewrite access_denied_is_fatal. cbn [negb fst snd Service_Delete services eventSources].
    intros _. rewrite delete_insert_eq. split; [by apply delete_id | done]. }
  case_decide as Hin.
  - rewrite key_exists_is_tolerated. cbn [negb fst snd]. by intros [? [=]].
  - cbn [fst snd]. by intros [? [=]].
Qed.

(** X8: an install that fails, for whatever reason, adds nothing: the
    service registrations are exactly as they were (when the event source
    cannot be installed, the service that was just created is deleted again)
    and no event source is added. *)
Theorem install_failure_adds_nothing h sys e :
  install_error (installService h sys) = Some e ->
  services (install_system (installService h sys)) = services sys
  /\ eventSources (install_system (installService h sys)) ⊆ eventSources sys.
Proof.
  intros He.
  destruct (installService_error_keeps_services h sys) as [Hs Hsrc];
    [by rewrite He|].
  split; [exact Hs|]. rewrite Hsrc. unfold eventlog_Remove.
  destruct (eventlog_remove_denied h); cbn [eventSources]; [done|].
  apply subseteq_difference_l. done.
Qed.

Lemma install_failure_adds_nothing_witness :
  services (install_system (installService Scenario.host_no_registry Sample.clean))
    = services Sample.clean
  /\ ServiceDelete "ImageServer"
       ∈ install_calls (installService Scenario.host_no_registry Sample.clean).
Proof.
  split.
  - apply (install_failure_adds_nothing Scenario.host_no_registry Sample.clean
             (Errorf "failed to install event logger: %w" [AErr access_denied])).
    vm_compute. reflexivity.
  - vm_compute. do 6 right. left.
Defined.

(** X9: [installService] succeeds exactly when the path of the executable
    resolves, the service manager is reached, the service is not registered
    yet, the service can be created and the registry can be written; whether
    the event source is registered already, and whether it could be removed
    first, does not matter. *)
Theorem install_succeeds_iff h sys :
  install_error (installService h sys) = None <->
  (exists exe, executable h = Ok exe)
  /\ connect_fault h = None
  /\ services sys !! "ImageServer" = None
  /\ create_fault h = None
  /\ eventlog_install_denied h = false.
Proof.
  pose proof (services_eventlog_Remove h "ImageServer" sys) as Hrm.
  unfold installService, install_error. cbv zeta.
  destruct (executable h) as [exe|err].
  2: { split; [discriminate|]. by intros [[exe [=]] _]. }
  destruct (connect_fault h).
  { split; [discriminate|]. by intros (_ & [=] & _). }
  rewrite Hrm.
  destruct (services sys !! "ImageServer") eqn:Hsvc.
  { split; [discriminate|]. by intros (_ & _ & [=] & _). }
  unfold mgr_CreateService. rewrite Hrm, Hsvc.
  destruct (create_fault h).
  { split; [discriminate|]. by intros (_ & _ & _ & [=] & _). }
  unfold eventlog_InstallAsEventCreate. cbn [services eventSources].
  destruct (eventlog_install_denied h).
  { rewrite access_denied_is_fatal. split; [discriminate|]. by intros (_ & _ & _ & _ & [=]). }
  case_decide as Hin.
  - rewrite key_exists_is_tolerated. cbn [negb fst snd]. split; [|done].
    intros _. repeat split; eauto.
  - cbn [fst snd]. split; [|done]. intros _. repeat split; eauto.
Qed.

(** X10: when the executable's install fails, the script's install
    command reports the failure and configures nothing: the registrations are
    what they were before the command. *)
Theorem script_install_failure_changes_no_registration h sys e :
  install_error (installService h sys) = Some e ->
  let x := ManageService.process_commands_install h sys in
  x.1 = ["Installing ImageServer service..."; "Failed to install service."]
  /\ services x.2 = services sys.
Proof.
  intros He. cbv zeta.
  destruct (installService_error_keeps_services h sys) as [Hs _];
    [by rewrite He|].
  unfold ManageService.process_commands_install, main_install.
  unfold install_error, install_system in *.
  destruct (installService h sys) as [[err sys1] calls]. simpl in He, Hs.
  subst err. rewrite decide_False by discriminate. by split.
Qed.

Lemma script_install_failure_changes_no_registration_witness :
  let x := ManageService.process_commands_install Sample.host Sample.installed in
  x.1 = ["Installing ImageServer service..."; "Failed to install service."]
  /\ services x.2 = services Sample.installed.
Proof.
  apply (script_install_failure_changes_no_registration Sample.host Sample.installed
           already_exists).
  vm_compute. reflexivity.
Defined.

(** ** The remover *)

Lemma wait_stopped_running (ps : list (result svc.Status oserror)) :
  Forall Remover.still_running ps ->
  exists t, Remover.wait_stopped ps = (t, false)
            /\ Remover.sleeps t = length ps
            /\ Remover.Delete ∉ t.
Proof.
  induction 1 as [|p ps (status & -> & Hrun) _ (t & IH & Hn & Hd)].
  - exists []. repeat split. apply not_elem_of_nil.
  - simpl. rewrite Hrun, IH. eexists. split; [reflexivity|]. split.
    + simpl. by rewrite Hn.
    + rewrite !not_elem_of_cons. by repeat split.
Qed.

Lemma wait_stopped_ends (ps : list (result svc.Status oserror)) p rest :
  Forall Remover.still_running ps ->
  Remover.ends_wait p ->
  exists t, Remover.wait_stopped (ps ++ p :: rest) = (t, true)
            /\ Remover.sleeps t = S (length ps).
Proof.
  intros Hps Hp. induction Hps as [|q ps (status & -> & Hrun) _ (t & IH & Hn)].
  - simpl. destruct p as [status|err].
    + simpl in Hp. rewrite Hp. by eexists.
    + by eexists.
  - simpl. rewrite Hrun, IH. eexists. split; [reflexivity|]. simpl. by rewrite Hn.
Qed.

(** X11: [removeService] waits for the service to stop without any bound:
    as long as every poll shows a service that has not stopped, it is still in
    its wait loop, having slept once per poll, and has deleted nothing. *)
Theorem remove_waits_without_bound env sys reg status :
  Remover.manager_fault env = None ->
  services sys !! "ImageServer" = Some reg ->
  Remover.query env = Ok status -> Remover.is_stopped status = false ->
  Remover.stop_fault env = None ->
  Forall Remover.still_running (Remover.polls env) ->
  let x := Remover.removeService env sys in
  Remover.remove_outcome x = Remover.Polling
  /\ Remover.remove_system x = sys
  /\ Remover.sleeps (Remover.remove_calls x) = length (Remover.polls env)
  /\ Remover.Delete ∉ Remover.remove_calls x.
Proof.
  intros Hm Hreg Hq Hs Hf Hpolls. cbv zeta.
  destruct (wait_stopped_running _ Hpolls) as (t & Hw & Hn & Hd).
  unfold Remover.removeService, Remover.stop_service,
    Remover.remove_outcome, Remover.remove_system, Remover.remove_calls.
  rewrite Hm, Hreg, Hq, Hs, Hf, Hw. cbn [fst snd app Remover.sleeps].
  repeat split; [done|]. rewrite !not_elem_of_cons. by repeat split.
Qed.

Lemma remove_waits_without_bound_witness :
  let x := Remover.removeService Scenario.remover_waiting Sample.installed in
  Remover.remove_outcome x = Remover.Polling
  /\ Remover.sleeps (Remover.remove_calls x) = 2%nat.
Proof.
  assert (Forall Remover.still_running (Remover.polls Scenario.remover_waiting))
    as Hpolls by (repeat constructor; by eexists).
  destruct (remove_waits_without_bound Scenario.remover_waiting Sample.installed
              Sample.registration Running_status
              eq_refl (lookup_singleton_eq _ _) eq_refl eq_refl eq_refl Hpolls)
    as (Hout & _ & Hn & _).
  split; [exact Hout | exact Hn].
Defined.

(** X12: once a poll shows the service stopped, or fails, the wait is
    over: [removeService] returns, having slept once for each poll up to that
    one, and the polls after it are not made. *)
Theorem remove_returns_once_stopped env sys reg status ps p rest :
  Remover.manager_fault env = None ->
  services sys !! "ImageServer" = Some reg ->
  Remover.query env = Ok status -> Remover.is_stopped status = false ->
  Remover.stop_fault env = None ->
  Remover.polls env = ps ++ p :: rest ->
  Forall Remover.still_running ps -> Remover.ends_wait p ->
  let x := Remover.removeService env sys in
  (exists err, Remover.remove_outcome x = Remover.Returned err)
  /\ Remover.sleeps (Remover.remove_calls x) = S (length ps)
  /\ Remover.Delete ∈ Remover.remove_calls x.
Proof.
  intros Hm Hreg Hq Hs Hf Hpolls Hps Hp. cbv zeta.
  destruct (wait_stopped_ends ps p rest Hps Hp) as (t & Hw & Hn).
  assert (forall t1 t2, Remover.sleeps (t1 ++ t2)
                        = (Remover.sleeps t1 + Remover.sleeps t2)%nat) as Happ.
  { induction t1 as [|[] t1 IH]; intros t2; simpl; by rewrite ?IH. }
  unfold Remover.removeService, Remover.stop_service,
    Remover.remove_outcome, Remover.remove_system, Remover.remove_calls.
  rewrite Hm, Hreg, Hq, Hs, Hf, Hpolls, Hw. cbv zeta.
  assert (Remover.Delete ∈ [Remover.Connect; Remover.OpenService "ImageServer";
                             Remover.Query] ++ (Remover.ControlStop :: t)
                            ++ [Remover.Delete]) as Hdel.
  { rewrite !elem_of_app, list_elem_of_singleton. auto. }
  destruct (Remover.delete_fault env).
  { cbn [fst snd]. split; [by eexists|]. split.
    - rewrite ?Happ. simpl. rewrite ?Happ. simpl. lia.
    - rewrite elem_of_app. by left. }
  destruct (Remover.eventlog_Remove env "ImageServer" _) as [[err|] sys'].
  - destruct (negb _); cbn [fst snd]; (split; [by eexists|]); split;
      try (rewrite ?Happ; simpl; rewrite ?Happ; simpl; lia);
      rewrite elem_of_app; by left.
  - cbn [fst snd]. split; [by eexists|]. split.
    + rewrite ?Happ. simpl. rewrite ?Happ. simpl. lia.
    + rewrite elem_of_app. by left.
Qed.

Lemma remove_returns_once_stopped_witness :
  let x := Remover.removeService Scenario.remover Sample.installed in
  Remover.remove_outcome x = Remover.Returned None
  /\ Remover.sleeps (Remover.remove_calls x) = 3%nat.
Proof.
  assert (Forall Remover.still_running
            [Ok StopPending_status; Ok StopPending_status]) as Hps
    by (repeat constructor; by eexists).
  destruct (remove_returns_once_stopped Scenario.remover Sample.installed
              Sample.registration Running_status
              [Ok StopPending_status; Ok StopPending_status]
              (Ok Scenario.stopped_status) []
              eq_refl (lookup_singleton_eq _ _) eq_refl eq_refl eq_refl eq_refl
              Hps eq_refl)
    as (_ & Hn & _).
  split; [vm_compute; reflexivity | exact Hn].
Defined.

Lemma access_denied_on_remove_is_fatal :
  strings_Contains (Error access_denied) "registry key does not exist" = false.
Proof. vm_compute. reflexivity. Qed.

(** The ways through [removeService], one goal for each. *)
Ltac remove_paths env sys :=
  unfold Remover.removeService, Remover.stop_service, Remover.eventlog_Remove,
    Remover.remove_outcome, Remover.remove_system, Remover.remove_calls;
  cbv zeta;
  destruct (Remover.manager_fault env) as [?|] eqn:?;
    [|destruct (services sys !! "ImageServer") as [?|] eqn:?;
      [destruct (Remover.query env) as [?status|?] eqn:?;
       [destruct (Remover.is_stopped status) eqn:?;
        [|destruct (Remover.stop_fault env) as [?|] eqn:?;
          [|destruct (Remover.wait_stopped (Remover.polls env)) as [? []] eqn:?]]|];
       try (destruct (Remover.delete_fault env) as [?|] eqn:?;
            [|destruct (Remover.registry_denied env) eqn:?;
              [rewrite access_denied_on_remove_is_fatal
              |destruct (decide ("ImageServer" ∈ eventSources (Service_Delete "ImageServer" sys)));
               [|destruct (strings_Contains (Error (Remover.missing_key_error env))
                             "registry key does not exist") eqn:?]]])|]];
  cbn [negb fst snd].

(** X13: when [removeService] returns nil the service was registered and
    is registered no more, the other registrations are untouched, and the
    event source [ImageServer] is gone. *)
Theorem remove_success env sys :
  let x := Remover.removeService env sys in
  Remover.remove_outcome x = Remover.Returned None ->
  is_Some (services sys !! "ImageServer")
  /\ services (Remover.remove_system x) = delete "ImageServer" (services sys)
  /\ eventSources (Remover.remove_system x) = eventSources sys ∖ {[ "ImageServer" ]}.
Proof.
  cbv zeta. remove_paths env sys; try discriminate; intros _;
    (split; [by eexists|]); (split; [reflexivity|]);
    cbn [Service_Delete eventSources services] in *; try reflexivity;
    symmetry; by apply difference_disjoint_L, disjoint_singleton_r.
Qed.

Lemma remove_success_witness :
  let x := Remover.removeService Scenario.remover Sample.installed in
  services (Remover.remove_system x) = delete "ImageServer" (services Sample.installed)
  /\ eventSources (Remover.remove_system x)
     = eventSources Sample.installed ∖ {[ "ImageServer" ]}.
Proof.
  destruct (remove_success Scenario.remover Sample.installed) as (_ & Hs & He).
  { vm_compute. reflexivity. }
  split; [exact Hs | exact He].
Defined.

(** X14: [removeService] has no way back: when the event source cannot be
    removed it returns an error although the service is deleted already. Every
    other error, and an unfinished wait, leaves the system as it was. *)
Theorem remove_failure_is_partial env sys :
  let x := Remover.removeService env sys in
  match Remover.remove_outcome x with
  | Remover.Returned None => True
  | Remover.Returned (Some e) =>
      (exists err,
          e = Errorf "failed to remove event logger: %w" [AErr err]
          /\ is_Some (services sys !! "ImageServer")
          /\ services (Remover.remove_system x) = delete "ImageServer" (services sys)
          /\ eventSources (Remover.remove_system x) = eventSources sys)
      \/ ((forall err, e <> Errorf "failed to remove event logger: %w" [AErr err])
          /\ Remover.remove_system x = sys)
  | Remover.Polling => Remover.remove_system x = sys
  end.
Proof.
  cbv zeta. remove_paths env sys; try done;
    try (right; split; [intros err'; discriminate | reflexivity]);
    left; eexists; (split; [reflexivity|]); (split; [by eexists|]); by split.
Qed.

(** X15: the not-installed error is returned exactly when the service
    manager is reached and the service is not registered; nothing is changed
    then. *)
Theorem remove_not_installed_iff env sys :
  let x := Remover.removeService env sys in
  (Remover.remove_outcome x = Remover.Returned (Some Remover.not_installed) <->
   Remover.manager_fault env = None /\ services sys !! "ImageServer" = None)
  /\ (Remover.remove_outcome x = Remover.Returned (Some Remover.not_installed) ->
      Remover.remove_system x = sys
      /\ Remover.remove_calls x
         = [Remover.Connect; Remover.OpenService "ImageServer"; Remover.Disconnect]).
Proof.
  cbv zeta. remove_paths env sys; (split; [split|]);
    first [ discriminate | by intros [? ?] | done ].
Qed.

(** X16: the service is only told to stop when the first query shows it
    running: when that query fails, or shows it stopped, [removeService] sends
    no stop control, never sleeps and goes straight on to delete the
    service. *)
Theorem remove_stops_only_running_service env sys reg :
  Remover.manager_fault env = None ->
  services sys !! "ImageServer" = Some reg ->
  Remover.ends_wait (Remover.query env) ->
  let x := Remover.removeService env sys in
  (Remover.ControlStop ∉ Remover.remove_calls x)
  /\ Remover.sleeps (Remover.remove_calls x) = 0%nat
  /\ Remover.Delete ∈ Remover.remove_calls x
  /\ Remover.remove_outcome x <> Remover.Polling.
Proof.
  intros Hm Hreg Hq. cbv zeta. unfold Remover.ends_wait in Hq.
  remove_paths env sys; try discriminate; try done;
    repeat split; try done; try (simpl; not_among_calls);
    simpl; rewrite !elem_of_cons; auto 10.
Qed.

Lemma remove_stops_only_running_service_witness :
  let x := Remover.removeService Scenario.remover_no_registry Sample.installed in
  (Remover.ControlStop ∉ Remover.remove_calls x)
  /\ Remover.sleeps (Remover.remove_calls x) = 0%nat.
Proof.
  destruct (remove_stops_only_running_service Scenario.remover_no_registry
              Sample.installed Sample.registration
              eq_refl (lookup_singleton_eq _ _) eq_refl)
    as (Hc & Hn & _).
  split; [exact Hc | exact Hn].
Defined.

(** After a successful install the event sources are what they were, up
    to the source [ImageServer]. *)
Lemma installService_success_sources h sys :
  install_error (installService h sys) = None ->
  eventSources (install_system (installService h sys)) ∖ {[ "ImageServer" ]}
  = eventSources sys ∖ {[ "ImageServer" ]}.
Proof.
  pose proof (services_eventlog_Remove h "ImageServer" sys) as Hrm.
  unfold installService, install_error, install_system. cbv zeta.
  destruct (executable h) as [exe|]; [|discriminate].
  destruct (connect_fault h); [discriminate|].
  rewrite Hrm.
  destruct (services sys !! "ImageServer") eqn:Hsvc; [discriminate|].
  unfold mgr_CreateService. rewrite Hrm, Hsvc.
  destruct (create_fault h); [discriminate|].
  unfold eventlog_InstallAsEventCreate. cbn [services eventSources].
  destruct (eventlog_install_denied h).
  { rewrite access_denied_is_fatal. discriminate. }
  unfold eventlog_Remove.
  destruct (eventlog_remove_denied h); cbn [eventSources]; case_decide as Hin;
    rewrite ?key_exists_is_tolerated; cbn [negb fst snd eventSources]; intros _;
    apply set_eq; intros y;
    rewrite ?elem_of_difference, ?elem_of_union, ?elem_of_difference, ?elem_of_singleton;
    tauto.
Qed.

(** X17: removing undoes installing: on a system without the service and
    without the event source, a successful install (by the executable alone or
    by the script) followed by a remove that goes through leaves the system
    exactly as it was. *)
Theorem install_then_remove_restores h env sys t :
  install_error (installService h sys) = None ->
  "ImageServer" ∉ eventSources sys ->
  Remover.manager_fault env = None ->
  Remover.stop_service env = Remover.Stopped_ t ->
  Remover.delete_fault env = None ->
  Remover.registry_denied env = false ->
  (let x := Remover.removeService env (install_system (installService h sys)) in
   Remover.remove_outcome x = Remover.Returned None /\ Remover.remove_system x = sys)
  /\
  (let x := Remover.removeService env (ManageService.process_commands_install h sys).2 in
   Remover.remove_outcome x = Remover.Returned None /\ Remover.remove_system x = sys).
Proof.
  intros Hok Hsrc Hm Hstop Hdel Hreg.
  destruct (installService_success h sys Hok) as (exe & Hexe & Hnone & Hsvc & Hin).
  assert (forall sys1,
             is_Some (services sys1 !! "ImageServer") ->
             delete "ImageServer" (services sys1) = services sys ->
             "ImageServer" ∈ eventSources sys1 ->
             eventSources sys1 ∖ {[ "ImageServer" ]} = eventSources sys ->
             let x := Remover.removeService env sys1 in
             Remover.remove_outcome x = Remover.Returned None
             /\ Remover.remove_system x = sys) as Hround.
  { intros sys1 [reg Hreg1] Hd Hi He. cbv zeta.
    unfold Remover.removeService, Remover.eventlog_Remove,
      Remover.remove_outcome, Remover.remove_system.
    rewrite Hm, Hreg1, Hstop, Hdel, Hreg. cbv zeta.
    cbn [Service_Delete eventSources services].
    rewrite decide_True by done. cbn [fst snd]. split; [done|].
    rewrite Hd, He. by destruct sys. }
  assert (eventSources (install_system (installService h sys)) ∖ {[ "ImageServer" ]}
          = eventSources sys) as Hsources.
  { rewrite (installService_success_sources h sys Hok).
    by apply difference_disjoint_L, disjoint_singleton_r. }
  split.
  - apply Hround; [rewrite Hsvc, lookup_insert_eq; by eexists | | done | done].
    rewrite Hsvc, delete_insert_eq. by apply delete_id.
  - unfold ManageService.process_commands_install, main_install.
    unfold install_error, install_system in *.
    destruct (installService h sys) as [[err sys1] calls]. simpl in Hok, Hsvc, Hin, Hsources.
    subst err. rewrite decide_True by reflexivity. cbn [snd].
    apply Hround; unfold ManageService.sc_failure, ManageService.sc_config_start;
      cbn [services eventSources]; [| | done | done].
    + rewrite !lookup_alter_eq, Hsvc, lookup_insert_eq. by eexists.
    + rewrite !delete_alter_eq, Hsvc, delete_insert_eq. by apply delete_id.
Qed.

Lemma install_then_remove_restores_witness :
  Remover.remove_system
    (Remover.removeService Scenario.remover
       (ManageService.process_commands_install Sample.host Sample.clean).2)
  = Sample.clean.
Proof.
  assert (install_error (installService Sample.host Sample.clean) = None) as Hok
    by (vm_compute; reflexivity).
  destruct (install_then_remove_restores Sample.host Scenario.remover Sample.clean
              [Remover.ControlStop; Remover.Sleep time_Second; Remover.Query;
               Remover.Sleep time_Second; Remover.Query;
               Remover.Sleep time_Second; Remover.Query]
              Hok (not_elem_of_empty _) eq_refl eq_refl eq_refl eq_refl)
    as [_ [_ Hscript]].
  exact Hscript.
Defined.

Lemma remove_not_installed_iff_witness :
  Remover.remove_outcome (Remover.removeService Scenario.remover Sample.clean)
    = Remover.Returned (Some Remover.not_installed)
  /\ Remover.remove_system (Remover.removeService Scenario.remover Sample.clean)
     = Sample.clean.
Proof.
  destruct (remove_not_installed_iff Scenario.remover Sample.clean) as [Hiff Hsame].
  assert (Remover.remove_outcome (Remover.removeService Scenario.remover Sample.clean)
          = Remover.Returned (Some Remover.not_installed)) as Hout.
  { apply Hiff. split; [reflexivity | apply lookup_empty]. }
  split; [exact Hout | apply Hsame, Hout].
Defined.

Lemma install_succeeds_iff_witness :
  install_error (installService Sample.host Sample.clean) = None.
Proof.
  apply install_succeeds_iff.
  split; [by eexists|]. split; [reflexivity|]. split; [apply lookup_empty|].
  split; reflexivity.
Defined.

Lemma isRunning_cleared_iff_stopped_witness :
  isRunning (final (Execute (fun _ => None) [ControlRecv Sample.stop_request]
                      (newService Sample.cfg))) = false.
Proof.
  apply (isRunning_cleared_iff_stopped (fun _ => None)
           [ControlRecv Sample.stop_request] Sample.cfg).
  reflexivity.
Defined.

(** ** The entry point of the service variant *)

Section main_properties.

Variable Dir : string -> string.
Variable Join : string -> string -> string.
Variable Decode : string -> result Config oserror.

Local Abbreviation main := (ServiceMain.main Dir Join Decode).
Local Abbreviation LoadConfig := (Webserver.LoadConfig Dir Join Decode).

(** X18: when the configuration cannot be loaded, neither the debug mode
    nor the service mode starts the listener: the process ends with status 1
    and the system is untouched. *)
Theorem main_config_failure_starts_nothing env sys e :
  LoadConfig (ServiceMain.loader env) "config.json" = Err e ->
  ServiceMain.command env <> Some "install" ->
  ServiceMain.command env <> Some "remove" ->
  let x := main env sys in
  ServiceMain.exit_status x = Some 1
  /\ ServiceMain.system_after x = sys
  /\ forallb (fun e => negb (ServiceMain.starts_listener e)) (ServiceMain.effects x) = true.
Proof.
  intros Hload Hi Hr. cbv zeta.
  assert (forall y, y = ServiceMain.run_as_service Dir Join Decode env ->
                    y.1 = Some 1
                    /\ forallb (fun e => negb (ServiceMain.starts_listener e)) y.2 = true)
    as Hsvc.
  { intros y ->. unfold ServiceMain.run_as_service. rewrite Hload.
    destruct (ServiceMain.svc_IsWindowsService env) as [[]|]; [|done|done].
    by destruct (ServiceMain.eventlog_Open_fault env). }
  assert (forall y, y = ServiceMain.run_debug Dir Join Decode env ->
                    y.1 = Some 1
                    /\ forallb (fun e => negb (ServiceMain.starts_listener e)) y.2 = true)
    as Hdbg.
  { intros y ->. unfold ServiceMain.run_debug. by rewrite Hload. }
  unfold ServiceMain.main, ServiceMain.command,
    ServiceMain.exit_status, ServiceMain.system_after, ServiceMain.effects in *.
  destruct (ServiceMain.os_Args env) as [|exe [|arg rest]].
  1, 2: destruct (ServiceMain.run_as_service Dir Join Decode env) as [st t] eqn:Hy;
        destruct (Hsvc _ eq_refl) as [? ?]; by repeat split.
  rewrite decide_False by congruence. rewrite decide_False by congruence.
  case_decide.
  - destruct (ServiceMain.run_debug Dir Join Decode env) as [st t] eqn:Hy.
    destruct (Hdbg _ eq_refl) as [? ?]. by repeat split.
  - destruct (ServiceMain.run_as_service Dir Join Decode env) as [st t] eqn:Hy.
    destruct (Hsvc _ eq_refl) as [? ?]. by repeat split.
Qed.

(** X19: [main] with the command [install] ends with status 0 exactly
    when [installService] returned nil and with status 1 otherwise, and leaves
    the system as [installService] left it; likewise for [remove], which has no
    exit status while it waits for the service to stop. *)
Theorem main_install_remove_status env sys :
  (ServiceMain.command env = Some "install" ->
   let x := main env sys in
   ServiceMain.exit_status x
     = Some (match install_error (installService (ServiceMain.host env) sys) with
             | Some _ => 1
             | None => 0
             end)
   /\ ServiceMain.system_after x
      = install_system (installService (ServiceMain.host env) sys))
  /\
  (ServiceMain.command env = Some "remove" ->
   let x := main env sys in
   let y := Remover.removeService (ServiceMain.remover env) sys in
   ServiceMain.exit_status x
     = match Remover.remove_outcome y with
       | Remover.Returned None => Some 0
       | Remover.Returned (Some _) => Some 1
       | Remover.Polling => None
       end
   /\ ServiceMain.system_after x = Remover.remove_system y).
Proof.
  unfold ServiceMain.main, ServiceMain.command, ServiceMain.exit_status,
    ServiceMain.system_after, install_error, install_system,
    Remover.remove_outcome, Remover.remove_system.
  split; intros Hc; cbv zeta;
    destruct (ServiceMain.os_Args env) as [|exe [|arg rest]]; try discriminate;
    injection Hc as ->.
  - rewrite decide_True by reflexivity.
    by destruct (installService _ _) as [[[err|] sys'] calls].
  - rewrite decide_False by discriminate. rewrite decide_True by reflexivity.
    by destruct (Remover.removeService _ _) as [[[[err|]|] sys'] calls].
Qed.

(** X20: in the service mode, once the process is found to run as a
    service, the event log opens and the configuration loads, the service value
    handed to [svc.Run] is built from the loaded configuration, with the flag
    [isRunning] unset and the listener of that configuration; the process ends
    with status 0 if [svc.Run] returns nil and with status 1 otherwise. *)
Theorem main_runs_loaded_configuration env sys c :
  ServiceMain.service_mode env ->
  ServiceMain.svc_IsWindowsService env = Ok true ->
  ServiceMain.eventlog_Open_fault env = None ->
  LoadConfig (ServiceMain.loader env) "config.json" = Ok c ->
  let x := main env sys in
  ServiceMain.SvcRun "ImageServer" (newService c) ∈ ServiceMain.effects x
  /\ (forall name s, ServiceMain.SvcRun name s ∈ ServiceMain.effects x ->
        name = "ImageServer" /\ server s = createServer c /\ config s = c
        /\ isRunning s = false)
  /\ ServiceMain.exit_status x
     = Some (match ServiceMain.svc_Run_err env with Some _ => 1 | None => 0 end)
  /\ ServiceMain.system_after x = sys.
Proof.
  intros (Hi & Hr & Hd) Hsvc Hopen Hload. cbv zeta.
  assert (ServiceMain.main Dir Join Decode env sys
          = (let '(status, t) := ServiceMain.run_as_service Dir Join Decode env in
             (status, sys, t))) as ->.
  { unfold ServiceMain.main, ServiceMain.command in *.
    destruct (ServiceMain.os_Args env) as [|exe [|arg rest]]; try done.
    rewrite !decide_False by congruence. done. }
  unfold ServiceMain.run_as_service, ServiceMain.exit_status,
    ServiceMain.system_after, ServiceMain.effects.
  rewrite Hsvc, Hopen, Hload.
  destruct (ServiceMain.svc_Run_err env); cbn [fst snd app];
    (split; [rewrite !elem_of_cons; auto 10|]); (split; [|done]);
    intros name s; rewrite !elem_of_cons, elem_of_nil;
    intros H; repeat (destruct H as [H | H]; try discriminate H); try done;
    by injection H as -> ->.
Qed.

End main_properties.

Lemma main_config_failure_starts_nothing_witness :
  let x := ServiceMain.main Sample.Dir Sample.Join Sample.Decode
             (Scenario.service_env ["image_server.exe"; "debug"] Sample.env_no_folder)
             Sample.installed in
  ServiceMain.exit_status x = Some 1 /\ ServiceMain.system_after x = Sample.installed.
Proof.
  destruct (main_config_failure_starts_nothing Sample.Dir Sample.Join Sample.Decode
              (Scenario.service_env ["image_server.exe"; "debug"] Sample.env_no_folder)
              Sample.installed
              (Errorf "folder does not exist: %s" [AStr "/tmp/images"]) eq_refl)
    as (Hexit & Hsys & _); [discriminate | discriminate |].
  split; [exact Hexit | exact Hsys].
Defined.

Lemma main_install_remove_status_witness :
  ServiceMain.exit_status
    (ServiceMain.main Sample.Dir Sample.Join Sample.Decode
       (Scenario.service_env ["image_server.exe"; "install"] Sample.env) Sample.installed)
  = Some 1.
Proof.
  destruct (main_install_remove_status Sample.Dir Sample.Join Sample.Decode
              (Scenario.service_env ["image_server.exe"; "install"] Sample.env)
              Sample.installed) as [Hinstall _].
  destruct (Hinstall eq_refl) as [Hexit _]. exact Hexit.
Defined.

Lemma main_runs_loaded_configuration_witness :
  let x := ServiceMain.main Sample.Dir Sample.Join Sample.Decode
             (Scenario.service_env ["image_server.exe"] Sample.env) Sample.installed in
  ServiceMain.SvcRun "ImageServer" (newService Sample.cfg) ∈ ServiceMain.effects x
  /\ ServiceMain.exit_status x = Some 0.
Proof.
  destruct (main_runs_loaded_configuration Sample.Dir Sample.Join Sample.Decode
              (Scenario.service_env ["image_server.exe"] Sample.env) Sample.installed
              Sample.cfg) as (Hrun & _ & Hexit & _); try reflexivity.
  - repeat split; discriminate.
  - split; [exact Hrun | exact Hexit].
Defined.

(** ** The entry point of the container variant *)



(** X22: when the folder does not exist the container's [main] ends with
    status 1 before anything is registered or served. *)
Theorem container_main_missing_folder env mux :
  os_IsNotExist (DockerMain.os_Stat env (DockerMain.folder_of env)) = true ->
  let x := DockerMain.main env mux in
  DockerMain.exit_status x = Some 1
  /\ DockerMain.mux_after x = mux
  /\ DockerMain.listeners (DockerMain.effects x) = []
  /\ last (DockerMain.effects x)
     = Some (DockerMain.LogFatalf "The folder %s does not exist" [DockerMain.folder_of env]).
Proof.
  unfold DockerMain.main, DockerMain.folder_of, DockerMain.listeners,
    DockerMain.effects, DockerMain.mux_after, DockerMain.exit_status.
  intros Hstat. cbv zeta.
  destruct (decide (DockerMain.os_Getenv env "PORT" = EmptyString));
    destruct (decide (DockerMain.os_Getenv env "IMAGE_FOLDER" = EmptyString));
    rewrite Hstat; by cbn [fst snd].
Qed.

Lemma container_main_missing_folder_witness :
  DockerMain.exit_status (DockerMain.main Scenario.container_no_folder ∅) = Some 1
  /\ DockerMain.mux_after (DockerMain.main Scenario.container_no_folder ∅) = ∅.
Proof.
  destruct (container_main_missing_folder Scenario.container_no_folder ∅ eq_refl)
    as (Hexit & Hmux & _).
  split; [exact Hexit | exact Hmux].
Defined.

(** X23: the container's [main] never ends with status 0: it ends with
    status 1, for a missing folder or a listener that fails, or it goes on
    serving. *)
Theorem container_main_never_succeeds env mux :
  DockerMain.exit_status (DockerMain.main env mux) <> Some 0.
Proof.
  unfold DockerMain.main, DockerMain.exit_status. cbv zeta.
  destruct (decide (DockerMain.os_Getenv env "PORT" = EmptyString));
    destruct (decide (DockerMain.os_Getenv env "IMAGE_FOLDER" = EmptyString));
    destruct (os_IsNotExist _); cbn [fst snd]; try discriminate;
    by destruct (DockerMain.ListenAndServe_err env).
Qed.
